(** * Snapping engine of mapbox-gl-draw-snap-mode, [src/utils/index.js]

    A shallow embedding of the snapping utilities and the properties of the
    specification that are checked against them.

    Numbers.  JavaScript numbers are modelled by the real numbers of the
    Standard Library: the code is trigonometric ([Math.cos], turf's
    haversine [distance]) and every comparison it makes is a comparison of
    such quantities.  Rounding, [NaN] and the infinities are outside the
    model; [undefined] is [None].

    Exceptions.  A JavaScript function that may throw returns [Exc A].

    External library.  The functions imported from turf are not part of the
    repository.  Those that are short and stable ([distance], [getCoords],
    [nearestPoint], [polygonToLine], [lineString]) are transcribed in module
    [Turf]; [nearestPointOnLine] and [midpoint] are kept abstract in the
    class [TurfLines]. *)

From Stdlib Require Import String Reals Lra Lia ZArith Bool List.
Import ListNotations.
Open Scope R_scope.

(** ** JavaScript values and array primitives *)

Module JS.

Inductive Exc (A : Type) : Type :=
| Ret (a : A)
| Throw (msg : string).
Arguments Ret {A} a.
Arguments Throw {A} msg.

Definition bind {A B : Type} (c : Exc A) (k : A -> Exc B) : Exc B :=
  match c with
  | Ret a => k a
  | Throw m => Throw m
  end.

(** [Array.prototype.map] with a callback that may throw. *)
Fixpoint mapM {A B : Type} (f : A -> Exc B) (l : list A) : Exc (list B) :=
  match l with
  | [] => Ret []
  | x :: t =>
      bind (f x) (fun y => bind (mapM f t) (fun ys => Ret (y :: ys)))
  end.

(** [x < y] on numbers. *)
Definition ltb (x y : R) : bool := if Rlt_dec x y then true else false.

(** [x < y] where an operand may be [undefined]: [undefined] converts to
    [NaN] and the comparison is false. *)
Definition lt (x y : option R) : bool :=
  match x, y with
  | Some a, Some b => ltb a b
  | _, _ => false
  end.

(** [v ? k(v) : d] for a number [v] that may be [undefined]:
    [undefined] and [0] are falsy. *)
Definition ifTruthy {A : Type} (v : option R) (k : R -> A) (d : A) : A :=
  match v with
  | Some x => if Req_dec_T x 0 then d else k x
  | None => d
  end.

(** Truthiness of a number that may be [undefined]. *)
Definition truthy (v : option R) : bool := ifTruthy v (fun _ => true) false.

(** [v || d] for a number [v] that may be [undefined]. *)
Definition orDefault (v : option R) (d : R) : R := ifTruthy v (fun x => x) d.

(** Truthiness of a boolean that may be [undefined]. *)
Definition truthyb (v : option bool) : bool :=
  match v with
  | Some b => b
  | None => false
  end.

(** [a[i]] for a number [i]: [undefined] out of range. *)
Definition index {A : Type} (a : list A) (i : Z) : option A :=
  if (i <? 0)%Z then None else nth_error a (Z.to_nat i).

(** [Array.prototype.slice(start, end)]: negative arguments count from
    the end, and both are clamped to the array. *)
Definition sliceBound (len k : Z) : Z :=
  if (k <? 0)%Z then Z.max (len + k) 0 else Z.min k len.

Definition slice {A : Type} (a : list A) (s e : Z) : list A :=
  let len := Z.of_nat (length a) in
  let k := sliceBound len s in
  let f := sliceBound len e in
  firstn (Z.to_nat (f - k)) (skipn (Z.to_nat k) a).

(** [Array.prototype.find]. *)
Fixpoint find {A : Type} (p : A -> bool) (a : list A) : option A :=
  match a with
  | [] => None
  | x :: t => if p x then Some x else find p t
  end.

(** [a[i] = v]: the array is extended with holes when [i] is past its
    end. *)
Fixpoint arraySet {A : Type} (i : nat) (v : A) (a : list (option A))
  : list (option A) :=
  match i, a with
  | O, [] => [Some v]
  | O, _ :: t => Some v :: t
  | S j, [] => None :: arraySet j v []
  | S j, h :: t => h :: arraySet j v t
  end.

(** [Array.prototype.sort(cmp)] where [cmp a b = key a - key b]: a stable
    sort by increasing key. *)
Fixpoint insertBy {A : Type} (key : A -> R) (x : A) (l : list A) : list A :=
  match l with
  | [] => [x]
  | y :: t => if ltb (key y) (key x) then y :: insertBy key x t
              else x :: y :: t
  end.

Definition sortBy {A : Type} (key : A -> R) (l : list A) : list A :=
  fold_right (insertBy key) [] l.

(** The remainder operator [x % m]: the quotient is truncated toward
    zero, so the result has the sign of [x]. *)
Definition trunc (x : R) : Z :=
  if Rle_dec 0 x then Int_part x else (- Int_part (- x))%Z.

Definition rem (x m : R) : R := x - m * IZR (trunc (x / m)).

(** [Math.atan2(y, x)]. *)
Definition atan2 (y x : R) : R :=
  if Rlt_dec 0 x then atan (y / x)
  else if Rlt_dec x 0 then
         (if Rle_dec 0 y then atan (y / x) + PI else atan (y / x) - PI)
       else if Rlt_dec 0 y then PI / 2
            else if Rlt_dec y 0 then - (PI / 2) else 0.

End JS.

Import JS.

Declare Scope exc_scope.
Delimit Scope exc_scope with exc.
Notation "x <- c ;; k" := (JS.bind c (fun x => k))
  (at level 61, c at next level, right associativity) : exc_scope.
Notation "' p <- c ;; k" := (JS.bind c (fun x => let p := x in k))
  (at level 61, p pattern, c at next level, right associativity) : exc_scope.
Open Scope exc_scope.

(** ** GeoJSON data *)

(** A position [[lng, lat]]. *)
Definition Position : Type := R * R.

(** The object [{ lng, lat }]. *)
Record LngLat : Type := mkLngLat { lng : R; lat : R }.

(** Geometries by [type].  Positions inside coordinate arrays are
    well-formed pairs, and every coordinate array may be empty; the
    coordinate array of a [Point] is a position itself and is kept as a raw
    array of numbers.  [Unsupported] stands for a geometry of any other
    type, which carries no [coordinates] (GeoJSON's [GeometryCollection]). *)
Inductive Geometry : Type :=
| Point (coordinates : list R)
| MultiPoint (coordinates : list Position)
| LineString (coordinates : list Position)
| MultiLineString (coordinates : list (list Position))
| Polygon (coordinates : list (list Position))
| MultiPolygon (coordinates : list (list (list Position)))
| Unsupported (type : string).

Record Feature : Type := mkFeature { id : string; geometry : Geometry }.

(** ** The turf functions used by the engine *)

Module Turf.

(** [degreesToRadians]: [(degrees % 360) * Math.PI / 180]. *)
Definition degreesToRadians (degrees : R) : R :=
  JS.rem degrees 360 * PI / 180.

(** [earthRadius / 1000], the factor of ["kilometers"]. *)
Definition kilometersFactor : R := 6371008.8 / 1000.

(** The haversine formula of [@turf/distance] on two valid positions. *)
Definition haversine (from to : Position) : R :=
  let dLat := degreesToRadians (snd to - snd from) in
  let dLon := degreesToRadians (fst to - fst from) in
  let lat1 := degreesToRadians (snd from) in
  let lat2 := degreesToRadians (snd to) in
  let a := sin (dLat / 2) ^ 2 + sin (dLon / 2) ^ 2 * cos lat1 * cos lat2 in
  2 * JS.atan2 (sqrt a) (sqrt (1 - a)) * kilometersFactor.

(** [getCoord] of [@turf/invariant] on an argument that may be
    [undefined]. *)
Definition getCoord (c : option Position) : Exc Position :=
  match c with
  | Some p => Ret p
  | None => Throw "coord is required"
  end.

(** [getCoord] on a raw array of numbers: it is a position when it has at
    least two entries. *)
Definition getCoordArray (c : list R) : Exc Position :=
  match c with
  | x :: y :: _ => Ret (x, y)
  | _ => Throw "coord must be GeoJSON Point or an Array of numbers"
  end.

(** [distance(from, to)] in kilometers. *)
Definition distance (from to : option Position) : Exc R :=
  f <- getCoord from ;;
  t <- getCoord to ;;
  Ret (haversine f t).

(** [lineString(coordinates)] of [@turf/helpers]. *)
Definition lineString (coordinates : list Position) : Exc Geometry :=
  if (length coordinates <? 2)%nat
  then Throw "coordinates must be an array of two or more positions"
  else Ret (LineString coordinates).

(** [coordsToLine] of [@turf/polygon-to-line], which [polygonToLine]
    applies to a [Polygon] and to every member of a [MultiPolygon]: the
    boundary is a [MultiLineString] when there are several rings and the
    [LineString] of the only ring otherwise. *)
Definition coordsToLine (coords : list (list Position)) : Exc Geometry :=
  if (1 <? length coords)%nat then Ret (MultiLineString coords)
  else match coords with
       | ring :: _ => lineString ring
       | [] => Throw "Cannot read properties of undefined (reading 'length')"
       end.

(** The result of [nearestPoint(target, points)]: the coordinates of the
    chosen point and [properties.distanceToPoint]. *)
Record Nearest : Type :=
  mkNearest { nCoordinates : Position; distanceToPoint : R }.

(** The scan of [@turf/nearest-point]: [minDist] starts at [Infinity]
    ([None] here), a point replaces the best one when it is strictly
    nearer. *)
Definition nearestStep (target : Position) (best : option Nearest)
           (pt : Position) : option Nearest :=
  let d := haversine target pt in
  match best with
  | None => Some (mkNearest pt d)
  | Some b => if JS.ltb d (distanceToPoint b)
              then Some (mkNearest pt d) else best
  end.

Definition nearestPoint (target : Position) (points : list Position)
  : Exc Nearest :=
  match fold_left (nearestStep target) points None with
  | Some n => Ret n
  | None => Throw "geojson is required"
  end.

(** The point returned by [nearestPointOnLine]: its coordinates and the
    properties [dist], [index] and [multiFeatureIndex]. *)
Record NearestOnLine : Type :=
  mkNearestOnLine {
      coordinates : Position;
      dist : R;
      index : Z;
      multiFeatureIndex : Z }.

End Turf.

(** The two turf functions that are kept abstract.  [nearestPointOnLine]
    reads only the geometry of its first argument. *)
Class TurfLines : Type :=
  { nearestPointOnLine : Geometry -> Position -> Exc Turf.NearestOnLine;
    midpoint : Position -> Position -> Exc Position }.

(** ** Results of the distance kernel *)

(** The object returned by [calcLayerDistances], with the [layer] that
    [calcClosestLayer] attaches.  A marker result has neither [segment] nor
    [isMarker]. *)
Record LayerDistances : Type :=
  mkLayerDistances {
      latlng : LngLat;
      segment : option (list Position);
      distance : option R;
      isMarker : option bool;
      layer : option Feature }.

Definition withLayer (r : LayerDistances) (l : Feature) : LayerDistances :=
  mkLayerDistances (latlng r) (segment r) (distance r) (isMarker r) (Some l).

(** [closestLayer.distance] where [closestLayer] may be the empty object. *)
Definition distanceOf (closestLayer : option LayerDistances) : option R :=
  match closestLayer with
  | Some r => distance r
  | None => None
  end.

(** ** Session data *)

Record SnapOptions : Type :=
  mkSnapOptions {
      snapToMidPoints : option bool;
      snapVertexPriorityDistance : option R;
      snapPx : option R }.

(** [state.options]: the fields [snap], [snapOptions] and [guides]. *)
Record Options : Type :=
  mkOptions {
      opt_snap : bool;
      opt_snapOptions : option SnapOptions;
      opt_guides : bool }.

(** The session state read and written by [snap].  [zoom] is
    [state.map.getZoom()]; a guide is the coordinate array of its line
    feature, written through [updateCoordinate]. *)
Record State : Type :=
  mkState {
      snapList : list Feature;
      vertices : list Position;
      options : Options;
      zoom : R;
      verticalGuide : list (option Position);
      horizontalGuide : list (option Position);
      showVerticalSnapLine : bool;
      showHorizontalSnapLine : bool }.

(** The pointer event: [e.lngLat] and [e.originalEvent.altKey]. *)
Record Event : Type := mkEvent { lngLat : LngLat; altKey : bool }.

(** A block of a function either returns from the function or goes on. *)
Inductive Flow (A B : Type) : Type :=
| Return (a : A)
| Continue (b : B).
Arguments Return {A B} a.
Arguments Continue {A B} b.

(** ** Guide-line resolver *)

Record NearbyVertices : Type :=
  mkNearbyVertices { verticalPx : option R; horizontalPx : option R }.

Definition getNearbyvertices (vertices : list Position) (coords : LngLat)
  : NearbyVertices :=
  let verticals := map fst vertices in
  let horizontals := map snd vertices in
  let nearbyVerticalGuide :=
    JS.find (fun px => JS.ltb (Rabs (px - lng coords)) 0.009) verticals in
  let nearbyHorizontalGuide :=
    JS.find (fun py => JS.ltb (Rabs (py - lat coords)) 0.009) horizontals in
  mkNearbyVertices nearbyVerticalGuide nearbyHorizontalGuide.

(** ** Meters per pixel *)

Definition metersPerPixel (latitude zoomLevel : R) : R :=
  let earthCircumference := 40075017 in
  let latitudeRadians := latitude * (PI / 180) in
  (earthCircumference * cos latitudeRadians) / Rpower 2 (zoomLevel + 8).

(** ** Geometry distance kernel, closest-feature selector, snap policy and
    orchestrator *)

Section Engine.

Context {turf : TurfLines}.

(** An element of [nearestPointsOfEachFeature]. *)
Record FeaturePoint : Type :=
  mkFeaturePoint { feature : Geometry; point : Turf.NearestOnLine }.

Definition getFeatureWithNearestPoint (lineStrings : list Geometry)
           (P : Position) : Exc FeaturePoint :=
  nearestPointsOfEachFeature <-
    JS.mapM (fun feat =>
               pt <- nearestPointOnLine feat P ;;
               Ret (mkFeaturePoint feat pt)) lineStrings ;;
  match JS.sortBy (fun a => Turf.dist (point a)) nearestPointsOfEachFeature
  with
  | first :: _ => Ret first
  | [] => Throw "Cannot read properties of undefined (reading 'feature')"
  end.

(** The line strings evaluated for a [Polygon]: [polygonToLine] gives a
    [LineString] for a single ring and a [MultiLineString] otherwise, and
    every ring goes through [lineString]. *)
Definition polygonLineStrings (rings : list (list Position))
  : Exc (list Geometry) :=
  lines <- Turf.coordsToLine rings ;;
  match lines with
  | LineString coords => l <- Turf.lineString coords ;; Ret [l]
  | MultiLineString coords => JS.mapM Turf.lineString coords
  | _ => Ret [] (* [coordsToLine] returns no other geometry *)
  end.

(** The line strings evaluated for a [MultiPolygon]: the boundaries of
    the member polygons, flattened. *)
Definition multiPolygonLineStrings (polys : list (list (list Position)))
  : Exc (list Geometry) :=
  features <- JS.mapM Turf.coordsToLine polys ;;
  JS.mapM Turf.lineString
    (flat_map (fun feat =>
                 match feat with
                 | LineString coords => [coords]
                 | MultiLineString coords => coords
                 | _ => []
                 end) features).

(** [coordinates] of the tail of [calcLayerDistances]: the coordinates of
    [lines], or the member selected by [multiFeatureIndex] when [lines]
    is a [MultiLineString]; [undefined] when [lines] has none.  At that
    place [lines] is a [LineString], a [MultiLineString] or a geometry of
    an unsupported type. *)
Definition lineCoordinates (lines : Geometry) (nearestPoint : Turf.NearestOnLine)
  : option (list Position) :=
  match lines with
  | LineString coords => Some coords
  | MultiLineString coords =>
      JS.index coords (Turf.multiFeatureIndex nearestPoint)
  | _ => None
  end.

(** The part of [calcLayerDistances] after [nearestPoint] is known;
    [isMarker] is false there, markers having returned before. *)
Definition segmentResult (lines : Geometry) (nearestPoint : Turf.NearestOnLine)
           (isMarker : bool) : Exc LayerDistances :=
  let '(lng, lat) := Turf.coordinates nearestPoint in
  let segmentIndex := Turf.index nearestPoint in
  match lineCoordinates lines nearestPoint with
  | None => Throw "Cannot read properties of undefined (reading 'length')"
  | Some coordinates =>
      let len := Z.of_nat (length coordinates) in
      let segmentIndex :=
        if (segmentIndex + 1 >=? len)%Z then (len - 2)%Z else segmentIndex in
      Ret (mkLayerDistances
             (mkLngLat lng lat)
             (Some (JS.slice coordinates segmentIndex (segmentIndex + 2)))
             (Some (Turf.dist nearestPoint))
             (Some isMarker)
             None)
  end.

Definition calcLayerDistances (lngLat : LngLat) (layer : Feature)
  : Exc LayerDistances :=
  let P : Position := (lng lngLat, lat lngLat) in
  match geometry layer with
  | Point latlngs =>
      (* isMarker: distance(latlngs, P) validates latlngs *)
      from <- Turf.getCoordArray latlngs ;;
      d <- Turf.distance (Some from) (Some P) ;;
      Ret (mkLayerDistances (mkLngLat (fst from) (snd from)) None
                            (Some d) None None)
  | MultiPoint latlngs =>
      np <- Turf.nearestPoint P latlngs ;;
      let c := Turf.nCoordinates np in
      Ret (mkLayerDistances (mkLngLat (fst c) (snd c)) None
                            (Some (Turf.distanceToPoint np)) None None)
  | Polygon rings =>
      lineStrings <- polygonLineStrings rings ;;
      closestFeature <- getFeatureWithNearestPoint lineStrings P ;;
      segmentResult (feature closestFeature) (point closestFeature) false
  | MultiPolygon polys =>
      lineStrings <- multiPolygonLineStrings polys ;;
      closestFeature <- getFeatureWithNearestPoint lineStrings P ;;
      segmentResult (feature closestFeature) (point closestFeature) false
  | lines =>
      nearestPoint <- nearestPointOnLine lines P ;;
      segmentResult lines nearestPoint false
  end.

(** The test of [calcClosestLayer]:
    [closestLayer.distance === undefined ||
     results.distance < closestLayer.distance]. *)
Definition replaces (results : LayerDistances)
           (closestLayer : option LayerDistances) : bool :=
  match distanceOf closestLayer with
  | None => true
  | Some d => JS.lt (distance results) (Some d)
  end.

(** One iteration of the [forEach] of [calcClosestLayer]; [None] is the
    empty object. *)
Definition closestStep (lngLat : LngLat)
           (acc : Exc (option LayerDistances)) (layer : Feature)
  : Exc (option LayerDistances) :=
  closestLayer <- acc ;;
  results <- calcLayerDistances lngLat layer ;;
  if replaces results closestLayer
  then Ret (Some (withLayer results layer))
  else Ret closestLayer.

Definition calcClosestLayer (lngLat : LngLat) (layers : list Feature)
  : Exc (option LayerDistances) :=
  fold_left (closestStep lngLat) layers (Ret None).

(** *** Snap resolution policy *)

Definition snapToLineOrPolygon (closestLayer : LayerDistances)
           (snapOptions : option SnapOptions)
           (snapVertexPriorityDistance : R) : Exc LngLat :=
  match segment closestLayer with
  | None => Throw "Cannot read properties of undefined (reading '0')"
  | Some seg =>
      let A := JS.index seg 0 in
      let B := JS.index seg 1 in
      let C : Position :=
        (lng (latlng closestLayer), lat (latlng closestLayer)) in
      distanceAC <- Turf.distance A (Some C) ;;
      distanceBC <- Turf.distance B (Some C) ;;
      let closestVertexLatLng := if JS.ltb distanceAC distanceBC then A else B in
      let shortestDistance :=
        if JS.ltb distanceAC distanceBC then distanceAC else distanceBC in
      '(closestVertexLatLng, shortestDistance) <-
        (if match snapOptions with
            | Some o => JS.truthyb (snapToMidPoints o)
            | None => false
            end
         then
           a <- Turf.getCoord A ;;
           b <- Turf.getCoord B ;;
           M <- midpoint a b ;;
           distanceMC <- Turf.distance (Some M) (Some C) ;;
           if JS.ltb distanceMC distanceAC && JS.ltb distanceMC distanceBC
           then Ret (Some M, distanceMC)
           else Ret (closestVertexLatLng, shortestDistance)
         else Ret (closestVertexLatLng, shortestDistance)) ;;
      let priorityDistance := snapVertexPriorityDistance in
      let snapLatlng :=
        if JS.ltb shortestDistance priorityDistance
        then closestVertexLatLng else Some C in
      match snapLatlng with
      | Some (lng, lat) => Ret (mkLngLat lng lat)
      | None => Throw "undefined is not iterable"
      end
  end.

Definition snapToPoint (closestLayer : LayerDistances) : LngLat :=
  latlng closestLayer.

(** The third parameter has the default value [1.25], which applies when
    the argument is [undefined]. *)
Definition checkPrioritiySnapping (closestLayer : LayerDistances)
           (snapOptions : option SnapOptions)
           (snapVertexPriorityDistance : option R) : Exc LngLat :=
  let snapVertexPriorityDistance :=
    match snapVertexPriorityDistance with
    | Some d => d
    | None => 1.25
    end in
  let snappingToPoint :=
    match segment closestLayer with
    | Some _ => false
    | None => true
    end in
  if snappingToPoint then Ret (snapToPoint closestLayer)
  else snapToLineOrPolygon closestLayer snapOptions
                           snapVertexPriorityDistance.

(** *** Orchestrator *)

(** What the feature-snapping block of [snap] leaves behind:
    [closestLayer], [minDistance] and [snapLatLng]. *)
Record FeatureSnap : Type :=
  mkFeatureSnap {
      closestLayer : LayerDistances;
      minDistance : R;
      snapLatLng : LngLat }.

(** The block [if (state.options.snap) { ... }]; without snapping the
    three variables stay [undefined]. *)
Definition snapFeatures (state : State) (e : Event)
  : Exc (Flow LngLat (option FeatureSnap)) :=
  let lng := lng (lngLat e) in
  let lat := lat (lngLat e) in
  if opt_snap (options state) then
    closestLayer <- calcClosestLayer (mkLngLat lng lat) (snapList state) ;;
    match closestLayer with
    | None => Ret (Return (mkLngLat lng lat))
    | Some closestLayer =>
        let isMarker := isMarker closestLayer in
        let snapVertexPriorityDistance :=
          match opt_snapOptions (options state) with
          | Some o => snapVertexPriorityDistance o
          | None => None
          end in
        snapLatLng <-
          (if negb (JS.truthyb isMarker)
           then checkPrioritiySnapping closestLayer
                  (opt_snapOptions (options state))
                  snapVertexPriorityDistance
           else Ret (latlng closestLayer)) ;;
        let minDistance :=
          JS.orDefault
            match opt_snapOptions (options state) with
            | Some o => snapPx o
            | None => None
            end 50
          * metersPerPixel lat (zoom state) in
        Ret (Continue (Some (mkFeatureSnap closestLayer minDistance snapLatLng)))
    end
  else Ret (Continue None).

(** [guide.updateCoordinate(path, lng, lat)] of the draw library:
    [coordinates[path] = [lng, lat]]. *)
Definition updateCoordinate (guide : list (option Position)) (path : nat)
           (lng lat : R) : list (option Position) :=
  JS.arraySet path (lng, lat) guide.

(** The block [if (state.options.guides) { ... }]: the two guide values
    and the state it leaves. *)
Definition snapGuides (state : State) (e : Event)
  : NearbyVertices * State :=
  if opt_guides (options state) then
    let nearestGuidline := getNearbyvertices (vertices state) (lngLat e) in
    let verticalPx := verticalPx nearestGuidline in
    let horizontalPx := horizontalPx nearestGuidline in
    let verticalGuide :=
      JS.ifTruthy verticalPx
        (fun verticalPx =>
           updateCoordinate
             (updateCoordinate (verticalGuide state) 0
                               verticalPx (lat (lngLat e) + 10))
             1 verticalPx (lat (lngLat e) - 10))
        (verticalGuide state) in
    let horizontalGuide :=
      JS.ifTruthy horizontalPx
        (fun horizontalPx =>
           updateCoordinate
             (updateCoordinate (horizontalGuide state) 0
                               (lng (lngLat e) + 10) horizontalPx)
             1 (lng (lngLat e) - 10) horizontalPx)
        (horizontalGuide state) in
    (nearestGuidline,
     mkState (snapList state) (vertices state) (options state) (zoom state)
             verticalGuide horizontalGuide
             (JS.truthy verticalPx) (JS.truthy horizontalPx))
  else (mkNearbyVertices None None, state).

(** The final [if] of [snap]. *)
Definition snapDecision (e : Event) (found : option FeatureSnap)
           (guides : NearbyVertices) : LngLat :=
  let lng := lng (lngLat e) in
  let lat := lat (lngLat e) in
  let verticalPx := verticalPx guides in
  let horizontalPx := horizontalPx guides in
  if match found with
     | Some f =>
         JS.lt (option_map (fun d => d * 1000) (distance (closestLayer f)))
               (Some (minDistance f))
     | None => false
     end
  then match found with
       | Some f => snapLatLng f
       | None => mkLngLat lng lat
       end
  else if JS.truthy verticalPx || JS.truthy horizontalPx then
         let lng := JS.ifTruthy verticalPx (fun v => v) lng in
         let lat := JS.ifTruthy horizontalPx (fun h => h) lat in
         mkLngLat lng lat
       else mkLngLat lng lat.

(** [snap(state, e)]: the returned coordinate and the state after the
    call. *)
Definition snap (state : State) (e : Event) : Exc (LngLat * State) :=
  let lng := lng (lngLat e) in
  let lat := lat (lngLat e) in
  if altKey e then
    Ret (mkLngLat lng lat,
         mkState (snapList state) (vertices state) (options state)
                 (zoom state) (verticalGuide state) (horizontalGuide state)
                 false false)
  else if (length (snapList state) <=? 0)%nat then
    Ret (mkLngLat lng lat, state)
  else
    found <- snapFeatures state e ;;
    match found with
    | Return r => Ret (r, state)
    | Continue found =>
        let '(guides, state) := snapGuides state e in
        Ret (snapDecision e found guides, state)
    end.

End Engine.

(** ** Building the candidate list, and the guide features *)

(** The reserved identifiers of the two guide features. *)
Module IDS.

Definition VERTICAL_GUIDE : string := "VERTICAL_GUIDE".
Definition HORIZONTAL_GUIDE : string := "HORIZONTAL_GUIDE".

End IDS.

(** A JavaScript value as [addVerticesToList] inspects it: [undefined], a
    number, or an array of values. *)
#[warnings="-register-all"]
Inductive Value : Type :=
| Undefined
| Num (x : R)
| Arr (items : list Value).

(** The array [[lng, lat]] of a position. *)
Definition positionArray (p : Position) : Value :=
  Arr [Num (fst p); Num (snd p)].

(** [feature.geometry.coordinates] as a value; a geometry of an unsupported
    type has none. *)
Definition coordinatesValue (g : Geometry) : Value :=
  match g with
  | Point c => Arr (map Num c)
  | MultiPoint cs => Arr (map positionArray cs)
  | LineString cs => Arr (map positionArray cs)
  | MultiLineString css =>
      Arr (map (fun cs => Arr (map positionArray cs)) css)
  | Polygon css =>
      Arr (map (fun cs => Arr (map positionArray cs)) css)
  | MultiPolygon polys =>
      Arr (map (fun css =>
                  Arr (map (fun cs => Arr (map positionArray cs)) css))
               polys)
  | Unsupported _ => Undefined
  end.

(** [addVerticesToList(coordinates)], the closure of [createSnapList] that
    pushes onto [vertices]: it returns the array after the call.  A value
    that is not an array is skipped; an array whose first element is an
    array is walked; any other array is pushed when its length is 2. *)
Fixpoint addVerticesToList (coordinates : Value) (vertices : list Value)
  : list Value :=
  match coordinates with
  | Arr items =>
      match items with
      | Arr _ :: _ =>
          fold_left (fun vertices coord => addVerticesToList coord vertices)
                    items vertices
      | _ =>
          if (length items =? 2)%nat then vertices ++ [coordinates]
          else vertices
      end
  | _ => vertices
  end.

(** The test that makes [createSnapList] skip a feature: it is a guide or
    the feature being drawn. *)
Definition skipped (feature currentFeature : Feature) : bool :=
  String.eqb (id feature) IDS.HORIZONTAL_GUIDE
  || String.eqb (id feature) IDS.VERTICAL_GUIDE
  || String.eqb (id feature) (id currentFeature).

(** [createSnapList(map, draw, currentFeature)], where [features] is
    [draw.getAll().features]: the pair [[snapList, vertices]]. *)
Definition createSnapList (features : list Feature) (currentFeature : Feature)
  : list Feature * list Value :=
  fold_left
    (fun acc feature =>
       let '(snapList, vertices) := acc in
       if skipped feature currentFeature then (snapList, vertices)
       else (snapList ++ [feature],
             addVerticesToList (coordinatesValue (geometry feature)) vertices))
    features ([], []).

(** [addPointToVertices(map, vertices, coordinates)]: the array after the
    push. *)
Definition addPointToVertices (vertices : list Position)
           (coordinates : Position) : list Position :=
  vertices ++ [coordinates].

(** [getGuideFeature(id)]: a line feature without coordinates (the fields
    that the engine reads). *)
Definition getGuideFeature (i : string) : Feature :=
  mkFeature i (LineString []).

(** [shouldHideGuide(state, geojson)], where [i] is
    [geojson.properties.id]. *)
Definition shouldHideGuide (state : State) (i : string) : bool :=
  if String.eqb i IDS.VERTICAL_GUIDE
     && (negb (opt_guides (options state))
         || negb (showVerticalSnapLine state))
  then true
  else if String.eqb i IDS.HORIZONTAL_GUIDE
          && (negb (opt_guides (options state))
              || negb (showHorizontalSnapLine state))
       then true
       else false.

(** * The wording of the specification *)

(** Guide matching: [m] is the first value of [xs] that lies within [tol] of
    [x], and [None] when no value does. *)
Inductive FirstWithin (tol x : R) : list R -> option R -> Prop :=
| FirstWithin_none (xs : list R) :
    Forall (fun u => ~ Rabs (u - x) < tol) xs ->
    FirstWithin tol x xs None
| FirstWithin_some (l1 : list R) (v : R) (l2 : list R) :
    Forall (fun u => ~ Rabs (u - x) < tol) l1 ->
    Rabs (v - x) < tol ->
    FirstWithin tol x (l1 ++ v :: l2) (Some v).

(** The fixed tolerance of the guide resolver, in degrees. *)
Definition toleranceDeg : R := 0.009.

(** The pixel tolerance as the specification words it: [snapPx], and 50
    when it is not configured. *)
Definition configuredSnapPx (o : Options) : R :=
  match opt_snapOptions o with
  | Some so => match snapPx so with
               | Some px => px
               | None => 50
               end
  | None => 50
  end.

(** The pixel tolerance the code uses: a configured [snapPx] of 0 counts as
    not configured. *)
Definition effectiveSnapPx (o : Options) : R :=
  match opt_snapOptions o with
  | Some so => match snapPx so with
               | Some px => if Req_dec_T px 0 then 50 else px
               | None => 50
               end
  | None => 50
  end.

(** The priority distance that [snap] hands to the policy:
    [snapOptions.snapVertexPriorityDistance] when there are snap options. *)
Definition configuredPriority (o : Options) : option R :=
  match opt_snapOptions o with
  | Some so => snapVertexPriorityDistance so
  | None => None
  end.

(** The raw coordinate with the component of every matched axis replaced
    by the guide value. *)
Definition replaceMatched (raw : LngLat) (vertical horizontal : option R)
  : LngLat :=
  mkLngLat match vertical with Some v => v | None => lng raw end
           match horizontal with Some h => h | None => lat raw end.

(** The final decision of the orchestrator in the words of section 4.5,
    step 5: the snap coordinate when the distance of the closest candidate,
    in meters, is below the tolerance, and the raw coordinate with the
    matched axes replaced otherwise. *)
Definition finalDecision (raw snapCoordinate : LngLat)
           (distanceKm tolerance : R) (vertical horizontal : option R)
  : LngLat :=
  if Rlt_dec (distanceKm * 1000) tolerance then snapCoordinate
  else replaceMatched raw vertical horizontal.




(** A candidate that the specification calls malformed: an unsupported
    type, or an empty coordinate array. *)
Definition malformed (g : Geometry) : Prop :=
  match g with
  | Point [] | MultiPoint [] | LineString [] | MultiLineString []
  | Polygon [] | MultiPolygon [] | Unsupported _ => True
  | _ => False
  end.

(** Whether [snapOptions && snapOptions.snapToMidPoints] is truthy. *)
Definition midPointsEnabled (snapOptions : option SnapOptions) : bool :=
  match snapOptions with
  | Some o => JS.truthyb (snapToMidPoints o)
  | None => false
  end.

(** The priority distance in force: the argument, or 1.25 km. *)
Definition priorityDistanceKm (snapVertexPriorityDistance : option R) : R :=
  match snapVertexPriorityDistance with
  | Some d => d
  | None => 1.25
  end.

(** The malformed candidates on which the kernel throws whatever turf's
    line functions do: an unsupported type, and an empty coordinate array
    of a [Point], [MultiPoint], [Polygon] or [MultiPolygon].  (On an empty
    [LineString] or [MultiLineString] the outcome is that of
    [nearestPointOnLine].) *)
Definition rejected (g : Geometry) : Prop :=
  match g with
  | Point [] | MultiPoint [] | Polygon [] | MultiPolygon [] | Unsupported _ =>
      True
  | _ => False
  end.

(** The positions that a geometry holds, in the order of its coordinate
    arrays.  The coordinate array of a [Point] is a position when it holds
    exactly two numbers. *)
Definition positionsOf (g : Geometry) : list Position :=
  match g with
  | Point [x; y] => [(x, y)]
  | Point _ => []
  | MultiPoint cs => cs
  | LineString cs => cs
  | MultiLineString css => concat css
  | Polygon css => concat css
  | MultiPolygon polys => concat (map (@concat Position) polys)
  | Unsupported _ => []
  end.

(** A feature that may be snapped to while [currentFeature] is drawn. *)
Definition snappable (currentFeature feature : Feature) : Prop :=
  id feature <> IDS.HORIZONTAL_GUIDE /\
  id feature <> IDS.VERTICAL_GUIDE /\
  id feature <> id currentFeature.

(** The guide value that [snap] acts on: the first recorded value within
    the tolerance, when it is not 0. *)
Definition UsableGuide (x : R) (xs : list R) (v : R) : Prop :=
  FirstWithin toleranceDeg x xs (Some v) /\ v <> 0.


(** * Inputs of the examples *)

(** An implementation of the two abstract turf functions for running the
    engine on a concrete input: it answers every [nearestPointOnLine] query
    with [np], which stands for turf's answer to the one query of the
    example, and takes the midpoint as the mean of the coordinates. *)
Definition oracleLines (np : Turf.NearestOnLine) : TurfLines :=
  {| nearestPointOnLine := fun _ _ => Ret np;
     midpoint := fun a b => Ret ((fst a + fst b) / 2, (snd a + snd b) / 2) |}.

Definition originLines : TurfLines :=
  oracleLines (Turf.mkNearestOnLine (0, 0) 0 1 0).

Definition marker (i : string) (x y : R) : Feature :=
  mkFeature i (Point [x; y]).

Definition defaultSnapOptions : SnapOptions := mkSnapOptions None None None.

(** A session with one marker one degree south of the origin, feature
    snapping on, guides off, and the pixel tolerance given by [px]. *)
Definition markerSession (px : option R) : State :=
  mkState [marker "m" 0 (-1)] [(0, -1)]
          (mkOptions true (Some (mkSnapOptions None None px)) false)
          0 [] [] false false.

(** A session with guides on and feature snapping off, whose only vertex
    lies on the prime meridian. *)
Definition meridianSession : State :=
  mkState [marker "m" 0 50] [(0, 50)]
          (mkOptions false None true)
          0 [] [] true true.

Definition pointerAt (x y : R) (alt : bool) : Event :=
  mkEvent (mkLngLat x y) alt.

(** * Properties *)

(** ** Facts about the JavaScript primitives *)

Section JSFacts.

Lemma ltb_true (x y : R) : JS.ltb x y = true <-> x < y.
Proof.
  unfold JS.ltb. destruct (Rlt_dec x y); split; intros; auto; discriminate.
Qed.

Lemma ltb_false (x y : R) : JS.ltb x y = false <-> ~ x < y.
Proof.
  unfold JS.ltb. destruct (Rlt_dec x y); split; intros; auto;
    [discriminate | contradiction].
Qed.

Lemma ifTruthy_zero (A : Type) (k : R -> A) (d : A) :
  JS.ifTruthy (Some 0) k d = d.
Proof.
  unfold JS.ifTruthy. destruct (Req_dec_T 0 0); [reflexivity | lra].
Qed.

Lemma ifTruthy_nonzero (A : Type) (x : R) (k : R -> A) (d : A) :
  x <> 0 -> JS.ifTruthy (Some x) k d = k x.
Proof.
  intros Hx. unfold JS.ifTruthy.
  destruct (Req_dec_T x 0); [contradiction | reflexivity].
Qed.

Lemma truthy_true (v : option R) :
  JS.truthy v = true <-> exists x, v = Some x /\ x <> 0.
Proof.
  unfold JS.truthy, JS.ifTruthy. destruct v as [x|].
  - destruct (Req_dec_T x 0); split.
    + discriminate.
    + intros [y [[= <-] Hy]]. contradiction.
    + intros _. exists x. auto.
    + reflexivity.
  - split; [discriminate | intros [x [[=] _]]].
Qed.

(** [find] returns the first element that satisfies the predicate. *)
Lemma find_some (A : Type) (p : A -> bool) (a : list A) (x : A) :
  JS.find p a = Some x <->
  exists l1 l2, a = l1 ++ x :: l2 /\ p x = true /\
                Forall (fun y => p y = false) l1.
Proof.
  induction a as [|h t IH]; simpl.
  - split; [discriminate|]. intros (l1 & l2 & H & _). destruct l1; discriminate.
  - destruct (p h) eqn:Hh.
    + split.
      * intros [= <-]. exists [], t. auto.
      * intros (l1 & l2 & H & Hx & Hall). destruct l1 as [|y l1].
        -- injection H as -> _. reflexivity.
        -- injection H as -> _. inversion Hall; congruence.
    + rewrite IH. split.
      * intros (l1 & l2 & -> & Hx & Hall). exists (h :: l1), l2. auto.
      * intros (l1 & l2 & H & Hx & Hall). destruct l1 as [|y l1].
        -- injection H as -> _. congruence.
        -- injection H as -> ->. inversion Hall. eauto.
Qed.

Lemma find_none (A : Type) (p : A -> bool) (a : list A) :
  JS.find p a = None <-> Forall (fun y => p y = false) a.
Proof.
  induction a as [|h t IH]; simpl.
  - split; auto.
  - destruct (p h) eqn:Hh.
    + split; [discriminate|]. intros H. inversion H. congruence.
    + rewrite IH. split; intros H; [auto | inversion H; auto].
Qed.


Lemma arraySet_twice (A : Type) (i : nat) (v w : A) (a : list (option A)) :
  JS.arraySet i v (JS.arraySet i w a) = JS.arraySet i v a.
Proof.
  revert a. induction i as [|i IH]; intros [|h t]; simpl; try reflexivity.
  - rewrite IH. reflexivity.
  - rewrite IH. reflexivity.
Qed.

Lemma arraySet_swap (A : Type) (i j : nat) (v w : A) (a : list (option A)) :
  i <> j ->
  JS.arraySet i v (JS.arraySet j w a) = JS.arraySet j w (JS.arraySet i v a).
Proof.
  revert j a. induction i as [|i IH]; intros [|j] [|h t] Hij; simpl;
    try reflexivity; try contradiction;
    f_equal; apply IH; intros ->; apply Hij; reflexivity.
Qed.

(** Writing both ends of a guide again with the same values changes
    nothing. *)
Lemma arraySet_ends_again (A : Type) (v w : A) (a : list (option A)) :
  let g := JS.arraySet 1 w (JS.arraySet 0 v a) in
  JS.arraySet 1 w (JS.arraySet 0 v g) = g.
Proof.
  cbv zeta. rewrite (arraySet_swap A 0 1) by discriminate.
  rewrite !arraySet_twice. reflexivity.
Qed.

Lemma insertBy_In (A : Type) (key : A -> R) (x y : A) (l : list A) :
  In y (JS.insertBy key x l) <-> y = x \/ In y l.
Proof.
  induction l as [|h t IH]; simpl.
  - intuition.
  - destruct (JS.ltb (key h) (key x)); simpl; rewrite ?IH; intuition.
Qed.

Lemma sortBy_In (A : Type) (key : A -> R) (y : A) (l : list A) :
  In y (JS.sortBy key l) <-> In y l.
Proof.
  unfold JS.sortBy. induction l as [|h t IH]; simpl.
  - reflexivity.
  - rewrite insertBy_In, IH. intuition.
Qed.

Lemma sortBy_nonempty (A : Type) (key : A -> R) (l : list A) :
  l <> [] -> JS.sortBy key l <> [].
Proof.
  destruct l as [|h t]; [contradiction|]. intros _ Hs.
  assert (Hin : In h (JS.sortBy key (h :: t))) by (apply sortBy_In; left; auto).
  rewrite Hs in Hin. destruct Hin.
Qed.

Lemma mapM_ret (A B : Type) (f : A -> Exc B) (l : list A) (r : list B) :
  JS.mapM f l = Ret r -> Forall2 (fun x y => f x = Ret y) l r.
Proof.
  revert r. induction l as [|h t IH]; simpl; intros r H.
  - injection H as <-. constructor.
  - destruct (f h) eqn:Hh; simpl in H; [|discriminate].
    destruct (JS.mapM f t) eqn:Ht; simpl in H; [|discriminate].
    injection H as <-. constructor; auto.
Qed.


End JSFacts.

(** ** Facts about the turf functions *)

Section TurfFacts.

Lemma trunc_small (x : R) : 0 <= x < 1 -> JS.trunc x = 0%Z.
Proof.
  intros [H0 H1]. unfold JS.trunc. destruct (Rle_dec 0 x); [|contradiction].
  symmetry. apply Int_part_spec. simpl. lra.
Qed.

Lemma rem_small (x m : R) : 0 <= x < m -> JS.rem x m = x.
Proof.
  intros [H0 H1]. unfold JS.rem. rewrite trunc_small.
  - simpl. ring.
  - assert (Hm : 0 < m) by lra. split.
    + apply Rmult_le_pos; [lra | left; apply Rinv_0_lt_compat; lra].
    + apply Rmult_lt_reg_r with m; [lra|].
      unfold Rdiv. rewrite Rmult_assoc, Rinv_l by lra. lra.
Qed.

Lemma degreesToRadians_small (d : R) :
  0 <= d < 360 -> Turf.degreesToRadians d = d * PI / 180.
Proof. intros H. unfold Turf.degreesToRadians. rewrite rem_small by lra. reflexivity. Qed.

Lemma atan_nonneg (x : R) : 0 <= x -> 0 <= atan x.
Proof.
  intros [H | <-].
  - left. rewrite <- atan_0. apply atan_increasing. exact H.
  - rewrite atan_0. lra.
Qed.

Lemma atan2_nonneg (y x : R) : 0 <= y -> 0 <= x -> 0 <= JS.atan2 y x.
Proof.
  intros Hy Hx. unfold JS.atan2.
  destruct (Rlt_dec 0 x) as [Hpos|Hnpos].
  - apply atan_nonneg. apply Rmult_le_pos; [exact Hy|].
    left. apply Rinv_0_lt_compat. exact Hpos.
  - destruct (Rlt_dec x 0); [lra|].
    destruct (Rlt_dec 0 y).
    + pose proof PI_RGT_0. lra.
    + destruct (Rlt_dec y 0); lra.
Qed.

(** The great-circle distance is never negative. *)
Lemma haversine_nonneg (p q : Position) : 0 <= Turf.haversine p q.
Proof.
  unfold Turf.haversine, Turf.kilometersFactor.
  apply Rmult_le_pos; [|lra].
  apply Rmult_le_pos; [lra|].
  apply atan2_nonneg; apply sqrt_pos.
Qed.

(** Along a meridian the distance is the difference of latitude, in
    radians, times the radius. *)
Lemma haversine_meridian (x y1 y2 : R) :
  0 <= y2 - y1 < 180 ->
  Turf.haversine (x, y1) (x, y2)
  = (y2 - y1) * PI / 180 * Turf.kilometersFactor.
Proof.
  intros Hd. pose proof PI_RGT_0 as Hpi.
  unfold Turf.haversine. cbn [fst snd].
  replace (x - x) with 0 by ring.
  rewrite (degreesToRadians_small 0) by lra.
  rewrite (degreesToRadians_small (y2 - y1)) by lra.
  set (t := (y2 - y1) * PI / 180 / 2).
  replace (0 * PI / 180 / 2) with 0 by field.
  rewrite sin_0.
  assert (Ht : 0 <= t < PI / 2).
  { unfold t. split.
    - apply Rmult_le_pos; [|lra]. apply Rmult_le_pos; [|lra].
      apply Rmult_le_pos; lra.
    - assert ((y2 - y1) * PI < 180 * PI) by (apply Rmult_lt_compat_r; lra).
      lra. }
  assert (Hsin : 0 <= sin t) by (apply sin_ge_0; lra).
  assert (Hcos : 0 < cos t) by (apply cos_gt_0; lra).
  replace (sin t ^ 2 + 0 ^ 2 * cos (Turf.degreesToRadians y1)
                       * cos (Turf.degreesToRadians y2))
    with (sin t ^ 2) by ring.
  replace (1 - sin t ^ 2) with (cos t ^ 2)
    by (pose proof (sin2_cos2 t) as H; unfold Rsqr in H; lra).
  rewrite !sqrt_pow2 by lra.
  unfold JS.atan2. destruct (Rlt_dec 0 (cos t)); [|contradiction].
  change (sin t / cos t) with (tan t).
  rewrite atan_tan by lra.
  unfold t. field.
Qed.


Lemma distance_ret (p q : Position) :
  Turf.distance (Some p) (Some q) = Ret (Turf.haversine p q).
Proof. reflexivity. Qed.

End TurfFacts.

(** ** Meters per pixel *)

Section MetersPerPixel.

Lemma Rpower_2_8 : Rpower 2 (0 + 8) = 256.
Proof.
  replace (0 + 8) with (INR 8) by (simpl; ring).
  rewrite Rpower_pow by lra. simpl. ring.
Qed.

Lemma Rpower_2_pos (x : R) : 0 < Rpower 2 x.
Proof. unfold Rpower. apply exp_pos. Qed.

Lemma cos_degrees_abs (latitude : R) :
  cos (latitude * (PI / 180)) = cos (Rabs latitude * (PI / 180)).
Proof.
  unfold Rabs. destruct (Rcase_abs latitude); [|reflexivity].
  rewrite <- (cos_neg (latitude * (PI / 180))). f_equal. ring.
Qed.

Lemma metersPerPixel_origin : metersPerPixel 0 0 = 40075017 / 256.
Proof.
  unfold metersPerPixel. cbv zeta.
  rewrite Rpower_2_8. replace (0 * (PI / 180)) with 0 by ring.
  rewrite cos_0. field.
Qed.

End MetersPerPixel.

(** C7.  [metersPerPixel(latitude, zoom)] is
    [40075017 * cos(latitude in radians) / 2^(zoom + 8)]; at latitude 0
    and zoom 0 it is [40075017 / 256]; and at a fixed zoom it strictly
    decreases as the absolute latitude grows toward 90 degrees.  (Over the
    real numbers: rounding is not modelled.) *)
Theorem metersPerPixel_formula :
  (forall latitude zoomLevel : R,
      metersPerPixel latitude zoomLevel
      = 40075017 * cos (latitude * PI / 180) / Rpower 2 (zoomLevel + 8)) /\
  metersPerPixel 0 0 = 40075017 / 256 /\
  (forall zoomLevel lat1 lat2 : R,
      Rabs lat1 < Rabs lat2 -> Rabs lat2 <= 90 ->
      metersPerPixel lat2 zoomLevel < metersPerPixel lat1 zoomLevel).
Proof.
  split; [|split].
  - intros latitude zoomLevel. unfold metersPerPixel. cbv zeta.
    replace (latitude * (PI / 180)) with (latitude * PI / 180) by field.
    reflexivity.
  - exact metersPerPixel_origin.
  - intros zoomLevel lat1 lat2 Hlt Hle.
    pose proof PI_RGT_0 as Hpi. pose proof (Rabs_pos lat1) as H1.
    unfold metersPerPixel. cbv zeta.
    rewrite (cos_degrees_abs lat1), (cos_degrees_abs lat2).
    assert (Hcos : cos (Rabs lat2 * (PI / 180)) < cos (Rabs lat1 * (PI / 180))).
    { assert (Hk : 0 < PI / 180) by lra.
      assert (Rabs lat2 * (PI / 180) <= 90 * (PI / 180))
        by (apply Rmult_le_compat_r; lra).
      assert (Rabs lat1 * (PI / 180) < Rabs lat2 * (PI / 180))
        by (apply Rmult_lt_compat_r; lra).
      assert (0 <= Rabs lat1 * (PI / 180)) by (apply Rmult_le_pos; lra).
      apply cos_decreasing_1; lra. }
    pose proof (Rpower_2_pos (zoomLevel + 8)) as Hp.
    unfold Rdiv. apply Rmult_lt_compat_r.
    + apply Rinv_0_lt_compat. exact Hp.
    + lra.
Qed.

Lemma metersPerPixel_formula_witness :
  metersPerPixel 60 3 < metersPerPixel 30 3.
Proof.
  apply (proj2 (proj2 metersPerPixel_formula)).
  - rewrite !Rabs_right by lra. lra.
  - rewrite Rabs_right by lra. lra.
Defined.

(** ** The orchestrator: bypass and idempotence *)

Section Orchestrator.

Context {turf : TurfLines}.

Lemma lngLat_eta (c : LngLat) : mkLngLat (lng c) (lat c) = c.
Proof. destruct c. reflexivity. Qed.

(** [snapFeatures] reads the candidate list, the options and the zoom,
    and nothing else of the state. *)
Lemma snapFeatures_ext (s1 s2 : State) (e : Event) :
  snapList s1 = snapList s2 -> options s1 = options s2 -> zoom s1 = zoom s2 ->
  snapFeatures s1 e = snapFeatures s2 e.
Proof.
  intros Hl Ho Hz. unfold snapFeatures. rewrite Hl, Ho, Hz. reflexivity.
Qed.

(** The guide block keeps the candidate list, the vertex set, the options
    and the zoom. *)
Lemma snapGuides_frame (state : State) (e : Event) :
  let state' := snd (snapGuides state e) in
  snapList state' = snapList state /\ vertices state' = vertices state /\
  options state' = options state /\ zoom state' = zoom state.
Proof.
  unfold snapGuides. destruct (opt_guides (options state)); simpl; auto.
Qed.

(** Running the guide block again on the state it left changes
    nothing. *)
Lemma snapGuides_again (state : State) (e : Event) :
  snapGuides (snd (snapGuides state e)) e = snapGuides state e.
Proof.
  unfold snapGuides. destruct (opt_guides (options state)) eqn:Hg.
  - cbn [snd options vertices verticalGuide horizontalGuide snapList zoom].
    rewrite Hg. f_equal. f_equal.
    + unfold JS.ifTruthy, updateCoordinate.
      destruct (verticalPx _) as [v|]; [|reflexivity].
      destruct (Req_dec_T v 0); [reflexivity|].
      apply arraySet_ends_again.
    + unfold JS.ifTruthy, updateCoordinate.
      destruct (horizontalPx _) as [h|]; [|reflexivity].
      destruct (Req_dec_T h 0); [reflexivity|].
      apply arraySet_ends_again.
  - cbn [snd]. rewrite Hg. reflexivity.
Qed.

End Orchestrator.

(** C3.  With the bypass modifier held, whatever the candidate list, the
    vertex set and the options, [snap] returns the raw event coordinate and
    leaves both guide-visibility flags false (the rest of the state is
    untouched). *)
Theorem snap_bypass {turf : TurfLines} (state : State) (e : Event) :
  altKey e = true ->
  exists state',
    snap state e = Ret (lngLat e, state') /\
    showVerticalSnapLine state' = false /\
    showHorizontalSnapLine state' = false /\
    snapList state' = snapList state /\ vertices state' = vertices state /\
    options state' = options state /\
    verticalGuide state' = verticalGuide state /\
    horizontalGuide state' = horizontalGuide state.
Proof.
  intros Halt. unfold snap. rewrite Halt, lngLat_eta.
  eexists. split; [reflexivity|]. simpl. repeat split.
Qed.

Lemma snap_bypass_witness :
  exists state',
    snap (turf := originLines) meridianSession (pointerAt 0.001 5 true)
    = Ret (mkLngLat 0.001 5, state') /\
    showVerticalSnapLine state' = false /\
    showHorizontalSnapLine state' = false /\
    snapList state' = snapList meridianSession /\
    vertices state' = vertices meridianSession /\
    options state' = options meridianSession /\
    verticalGuide state' = verticalGuide meridianSession /\
    horizontalGuide state' = horizontalGuide meridianSession.
Proof.
  apply (snap_bypass (turf := originLines) meridianSession
                     (pointerAt 0.001 5 true)).
  reflexivity.
Defined.

(** C9.  When [snap] returns a coordinate and the same event is given
    again to the state that the first call left (candidate list, vertex
    set and options being unchanged), the second call returns the same
    coordinate; it does not even change the state again. *)
Theorem snap_idempotent {turf : TurfLines} (state state' : State) (e : Event)
        (c : LngLat) :
  snap state e = Ret (c, state') ->
  snap state' e = Ret (c, state').
Proof.
  unfold snap. destruct (altKey e) eqn:Halt.
  - intros [= <- <-]. reflexivity.
  - destruct (length (snapList state) <=? 0)%nat eqn:Hlen.
    + intros [= <- <-]. rewrite Hlen. reflexivity.
    + destruct (snapFeatures state e) as [[r|found]|msg] eqn:Hf; simpl.
      * intros [= <- <-]. rewrite Hlen, Hf. reflexivity.
      * pose proof (snapGuides_frame state e) as (Hl & Hv & Ho & Hz).
        pose proof (snapGuides_again state e) as Hagain.
        destruct (snapGuides state e) as [guides st1] eqn:Hg.
        cbn [snd] in *. intros [= <- <-].
        rewrite Hl, Hlen.
        rewrite (snapFeatures_ext st1 state e Hl Ho Hz), Hf. simpl.
        rewrite Hagain. reflexivity.
      * discriminate.
Qed.

(** ** Running the engine on concrete inputs *)

Ltac abs_lt := apply Rabs_def1; lra.
Ltac abs_nlt := let H := fresh in intros H; apply Rabs_def2 in H; lra.

(** Settles the comparisons and truthiness tests on numerals that the goal
    contains. *)
Ltac js_numerals :=
  repeat match goal with
    | |- context [JS.ltb (Rabs ?a) ?b] =>
        first [ rewrite (proj2 (ltb_true (Rabs a) b)) by abs_lt
              | rewrite (proj2 (ltb_false (Rabs a) b)) by abs_nlt ]
    | |- context [JS.ltb ?a ?b] =>
        first [ rewrite (proj2 (ltb_true a b)) by lra
              | rewrite (proj2 (ltb_false a b)) by lra ]
    | |- context [JS.ifTruthy (Some ?x) ?k ?d] =>
        first [ rewrite (ifTruthy_zero _ k d)
              | rewrite (ifTruthy_nonzero _ x k d) by lra ]
    end.

(** A session with guides on and feature snapping off, whose only vertex
    is at longitude 10: the pointer at longitude 10.0005 is moved onto the
    recorded longitude, and the vertical guide is drawn through it. *)
Example snap_guide_run :
  snap (turf := originLines)
       (mkState [marker "m" 10 20] [(10, 20)] (mkOptions false None true)
                0 [] [] false false)
       (pointerAt 10.0005 50 false)
  = Ret (mkLngLat 10 50,
         mkState [marker "m" 10 20] [(10, 20)] (mkOptions false None true)
                 0 [Some (10, 50 + 10); Some (10, 50 - 10)] [] true false).
Proof.
  unfold snap, snapFeatures, snapGuides, snapDecision, getNearbyvertices,
    JS.truthy.
  simpl. js_numerals. simpl. js_numerals. reflexivity.
Qed.

Lemma snap_idempotent_witness :
  let state :=
    mkState [marker "m" 10 20] [(10, 20)] (mkOptions false None true)
            0 [Some (10, 50 + 10); Some (10, 50 - 10)] [] true false in
  snap (turf := originLines) state (pointerAt 10.0005 50 false)
  = Ret (mkLngLat 10 50, state).
Proof.
  exact (snap_idempotent (turf := originLines) _ _ _ _ snap_guide_run).
Defined.

(** ** The guide-line resolver *)

Section Guides.

Context {turf : TurfLines}.

(** [find] with the tolerance test computes the first value within the
    tolerance, and only that. *)
Lemma find_FirstWithin (tol x : R) (xs : list R) (m : option R) :
  JS.find (fun u => JS.ltb (Rabs (u - x)) tol) xs = m <->
  FirstWithin tol x xs m.
Proof.
  split.
  - intros <-. destruct (JS.find _ xs) as [v|] eqn:Hf.
    + apply find_some in Hf. destruct Hf as (l1 & l2 & -> & Hv & Hall).
      constructor.
      * eapply Forall_impl; [|exact Hall]. intros u Hu. apply ltb_false, Hu.
      * apply ltb_true, Hv.
    + constructor. apply find_none in Hf.
      eapply Forall_impl; [|exact Hf]. intros u Hu. apply ltb_false, Hu.
  - intros [xs' Hall | l1 v l2 Hall Hv].
    + apply find_none. eapply Forall_impl; [|exact Hall].
      intros u Hu. apply ltb_false, Hu.
    + apply find_some. exists l1, l2. repeat split.
      * apply ltb_true, Hv.
      * eapply Forall_impl; [|exact Hall]. intros u Hu. apply ltb_false, Hu.
Qed.

(** The resolver finds, on each axis, the first recorded value within
    0.009 degrees (strictly) of the query, in vertex order. *)
Lemma getNearbyvertices_first (vertices : list Position) (coords : LngLat) :
  FirstWithin toleranceDeg (lng coords) (map fst vertices)
              (verticalPx (getNearbyvertices vertices coords)) /\
  FirstWithin toleranceDeg (lat coords) (map snd vertices)
              (horizontalPx (getNearbyvertices vertices coords)).
Proof.
  unfold getNearbyvertices, toleranceDeg. cbn [verticalPx horizontalPx].
  split; apply find_FirstWithin; reflexivity.
Qed.

Lemma FirstWithin_unique (tol x : R) (xs : list R) (m1 m2 : option R) :
  FirstWithin tol x xs m1 -> FirstWithin tol x xs m2 -> m1 = m2.
Proof.
  intros H1 H2. apply find_FirstWithin in H1, H2. congruence.
Qed.

(** Both ends of a guide after the two [updateCoordinate] calls. *)
Lemma guide_ends (v w : Position) (guide : list (option Position)) :
  exists rest,
    JS.arraySet 1 w (JS.arraySet 0 v guide) = Some v :: Some w :: rest.
Proof.
  destruct guide as [|a [|b t]]; simpl; eauto.
Qed.

(** A matched guide value other than 0 is drawn: both ends of the guide
    carry the matched recorded value and lie 10 degrees on either side of
    the query along the other axis, and the flag is raised. *)
Lemma snapGuides_vertical_drawn (state : State) (e : Event) (v : R) :
  opt_guides (options state) = true ->
  verticalPx (getNearbyvertices (vertices state) (lngLat e)) = Some v ->
  v <> 0 ->
  exists rest,
    verticalGuide (snd (snapGuides state e))
    = Some (v, lat (lngLat e) + 10) :: Some (v, lat (lngLat e) - 10) :: rest /\
    showVerticalSnapLine (snd (snapGuides state e)) = true.
Proof.
  intros Hg Hv Hnz. unfold snapGuides. rewrite Hg.
  cbn [snd verticalGuide showVerticalSnapLine]. rewrite Hv.
  unfold JS.truthy. rewrite !ifTruthy_nonzero by exact Hnz.
  unfold updateCoordinate.
  destruct (guide_ends (v, lat (lngLat e) + 10) (v, lat (lngLat e) - 10)
                       (verticalGuide state)) as [rest Hrest].
  exists rest. split; [exact Hrest | reflexivity].
Qed.

Lemma snapGuides_horizontal_drawn (state : State) (e : Event) (h : R) :
  opt_guides (options state) = true ->
  horizontalPx (getNearbyvertices (vertices state) (lngLat e)) = Some h ->
  h <> 0 ->
  exists rest,
    horizontalGuide (snd (snapGuides state e))
    = Some (lng (lngLat e) + 10, h) :: Some (lng (lngLat e) - 10, h) :: rest /\
    showHorizontalSnapLine (snd (snapGuides state e)) = true.
Proof.
  intros Hg Hh Hnz. unfold snapGuides. rewrite Hg.
  cbn [snd horizontalGuide showHorizontalSnapLine]. rewrite Hh.
  unfold JS.truthy. rewrite !ifTruthy_nonzero by exact Hnz.
  unfold updateCoordinate.
  destruct (guide_ends (lng (lngLat e) + 10, h) (lng (lngLat e) - 10, h)
                       (horizontalGuide state)) as [rest Hrest].
  exists rest. split; [exact Hrest | reflexivity].
Qed.

(** A matched guide value equal to 0 is dropped by the guide block. *)
Lemma snapGuides_vertical_zero (state : State) (e : Event) :
  opt_guides (options state) = true ->
  verticalPx (getNearbyvertices (vertices state) (lngLat e)) = Some 0 ->
  verticalGuide (snd (snapGuides state e)) = verticalGuide state /\
  showVerticalSnapLine (snd (snapGuides state e)) = false.
Proof.
  intros Hg Hv. unfold snapGuides. rewrite Hg.
  cbn [snd verticalGuide showVerticalSnapLine]. rewrite Hv.
  unfold JS.truthy. rewrite !ifTruthy_zero. auto.
Qed.

Lemma snapGuides_horizontal_zero (state : State) (e : Event) :
  opt_guides (options state) = true ->
  horizontalPx (getNearbyvertices (vertices state) (lngLat e)) = Some 0 ->
  horizontalGuide (snd (snapGuides state e)) = horizontalGuide state /\
  showHorizontalSnapLine (snd (snapGuides state e)) = false.
Proof.
  intros Hg Hh. unfold snapGuides. rewrite Hg.
  cbn [snd horizontalGuide showHorizontalSnapLine]. rewrite Hh.
  unfold JS.truthy. rewrite !ifTruthy_zero. auto.
Qed.

Lemma snapGuides_fst (state : State) (e : Event) :
  opt_guides (options state) = true ->
  fst (snapGuides state e) = getNearbyvertices (vertices state) (lngLat e).
Proof. intros Hg. unfold snapGuides. rewrite Hg. reflexivity. Qed.

(** In the final decision a guide value of 0 counts as no guide value. *)
Lemma snapDecision_vertical_zero (e : Event) (found : option FeatureSnap)
      (h : option R) :
  snapDecision e found (mkNearbyVertices (Some 0) h)
  = snapDecision e found (mkNearbyVertices None h).
Proof.
  unfold snapDecision, JS.truthy. cbn [verticalPx horizontalPx].
  rewrite !ifTruthy_zero. reflexivity.
Qed.

Lemma snapDecision_horizontal_zero (e : Event) (found : option FeatureSnap)
      (v : option R) :
  snapDecision e found (mkNearbyVertices v (Some 0))
  = snapDecision e found (mkNearbyVertices v None).
Proof.
  unfold snapDecision, JS.truthy. cbn [verticalPx horizontalPx].
  rewrite !ifTruthy_zero. reflexivity.
Qed.

(** Without a vertical guide value the decision is the feature snap
    coordinate or keeps the raw longitude. *)
Lemma snapDecision_no_vertical (e : Event) (found : option FeatureSnap)
      (h : option R) :
  let c := snapDecision e found (mkNearbyVertices None h) in
  (exists f, found = Some f /\ c = snapLatLng f) \/ lng c = lng (lngLat e).
Proof.
  unfold snapDecision. cbn [verticalPx horizontalPx].
  destruct found as [f|].
  - destruct (JS.lt _ _); [left; eauto | right].
    destruct (_ || _); reflexivity.
  - right. destruct (_ || _); reflexivity.
Qed.

Lemma snapDecision_no_horizontal (e : Event) (found : option FeatureSnap)
      (v : option R) :
  let c := snapDecision e found (mkNearbyVertices v None) in
  (exists f, found = Some f /\ c = snapLatLng f) \/ lat c = lat (lngLat e).
Proof.
  unfold snapDecision. cbn [verticalPx horizontalPx].
  destruct found as [f|].
  - destruct (JS.lt _ _); [left; eauto | right].
    destruct (_ || _); reflexivity.
  - right. destruct (_ || _); reflexivity.
Qed.

End Guides.

(** ** The closest-feature selector *)

Section Selector.

Context {turf : TurfLines}.

(** Once a candidate has thrown, the scan has thrown. *)
Lemma closest_fold_throw (lngLat : LngLat) (layers : list Feature)
      (msg : string) :
  fold_left (closestStep lngLat) layers (Throw msg) = Throw msg.
Proof. induction layers as [|l t IH]; simpl; auto. Qed.

(** Once a candidate is held, one is held to the end. *)
Lemma closest_fold_some (lngLat : LngLat) (layers : list Feature)
      (r : LayerDistances) (x : option LayerDistances) :
  fold_left (closestStep lngLat) layers (Ret (Some r)) = Ret x ->
  exists r', x = Some r'.
Proof.
  revert r. induction layers as [|l t IH]; simpl; intros r H.
  - injection H as <-. eauto.
  - destruct (calcLayerDistances lngLat l) as [res|msg]; simpl in H.
    + destruct (replaces res (Some r)); eapply IH; exact H.
    + rewrite closest_fold_throw in H. discriminate.
Qed.

(** On a candidate list that is not empty the selector never returns the
    empty object. *)
Lemma calcClosestLayer_nonempty (lngLat : LngLat) (layers : list Feature)
      (x : option LayerDistances) :
  layers <> [] -> calcClosestLayer lngLat layers = Ret x ->
  exists r, x = Some r.
Proof.
  unfold calcClosestLayer. destruct layers as [|l t]; [contradiction|].
  intros _. simpl.
  destruct (calcLayerDistances lngLat l) as [res|msg]; simpl.
  - apply closest_fold_some.
  - rewrite closest_fold_throw. discriminate.
Qed.

(** A candidate on which the kernel throws makes the selector throw,
    wherever it stands in the list. *)
Lemma calcClosestLayer_throws (lngLat : LngLat) (layers : list Feature)
      (l : Feature) :
  In l layers -> (exists msg, calcLayerDistances lngLat l = Throw msg) ->
  exists msg, calcClosestLayer lngLat layers = Throw msg.
Proof.
  unfold calcClosestLayer. generalize (Ret (A := option LayerDistances) None).
  induction layers as [|h t IH]; intros acc Hin [msg Hl]; [destruct Hin|].
  destruct Hin as [-> | Hin].
  - simpl. destruct acc as [a|m]; simpl.
    + rewrite Hl. simpl. rewrite closest_fold_throw. eauto.
    + rewrite closest_fold_throw. eauto.
  - simpl. apply IH; eauto.
Qed.

(** With candidates, the feature block of [snap] goes on to the guide
    block unless it throws. *)
Lemma snapFeatures_continues (state : State) (e : Event)
      (x : Flow LngLat (option FeatureSnap)) :
  snapList state <> [] -> snapFeatures state e = Ret x ->
  exists found, x = Continue found.
Proof.
  intros Hne. unfold snapFeatures.
  destruct (opt_snap (options state)).
  - destruct (calcClosestLayer _ (snapList state)) as [cl|msg] eqn:Hc;
      simpl; [|discriminate].
    destruct (calcClosestLayer_nonempty _ _ _ Hne Hc) as [r ->].
    match goal with
    | |- JS.bind ?c _ = _ -> _ => destruct c; simpl; [|discriminate]
    end.
    intros [= <-]. eauto.
  - intros [= <-]. eauto.
Qed.

(** The shape of a returning call of [snap] that reaches the guides. *)
Lemma snap_reaches_guides (state state' : State) (e : Event) (c : LngLat) :
  altKey e = false -> snapList state <> [] ->
  snap state e = Ret (c, state') ->
  exists found,
    snapFeatures state e = Ret (Continue found) /\
    c = snapDecision e found (fst (snapGuides state e)) /\
    state' = snd (snapGuides state e).
Proof.
  intros Halt Hne. unfold snap. rewrite Halt.
  destruct (snapList state) as [|l t] eqn:Hl; [contradiction|].
  cbn [length Nat.leb]. rewrite <- Hl in Hne.
  destruct (snapFeatures state e) as [x|msg] eqn:Hf; simpl; [|discriminate].
  destruct (snapFeatures_continues _ _ _ Hne Hf) as [found ->].
  destruct (snapGuides state e) as [g st1]. intros [= <- <-].
  exists found. auto.
Qed.

End Selector.

(** C10.  When the first matching guide value on an axis is the number 0,
    a call of [snap] that reaches the guide block (guides enabled, no
    bypass, candidates present) behaves as if nothing matched on that
    axis: the visibility flag of the axis is false afterwards, the guide
    keeps its endpoints, and the returned coordinate is the one decided
    with no guide value on that axis -- the feature snap coordinate, or a
    coordinate whose component on that axis is the raw one. *)
Theorem snap_zero_guide_ignored {turf : TurfLines} (state state' : State)
        (e : Event) (c : LngLat) :
  altKey e = false -> snapList state <> [] ->
  opt_guides (options state) = true ->
  snap state e = Ret (c, state') ->
  let g := getNearbyvertices (vertices state) (lngLat e) in
  (verticalPx g = Some 0 ->
   showVerticalSnapLine state' = false /\
   verticalGuide state' = verticalGuide state /\
   exists found,
     snapFeatures state e = Ret (Continue found) /\
     c = snapDecision e found (mkNearbyVertices None (horizontalPx g)) /\
     ((exists f, found = Some f /\ c = snapLatLng f) \/
      lng c = lng (lngLat e))) /\
  (horizontalPx g = Some 0 ->
   showHorizontalSnapLine state' = false /\
   horizontalGuide state' = horizontalGuide state /\
   exists found,
     snapFeatures state e = Ret (Continue found) /\
     c = snapDecision e found (mkNearbyVertices (verticalPx g) None) /\
     ((exists f, found = Some f /\ c = snapLatLng f) \/
      lat c = lat (lngLat e))).
Proof.
  intros Halt Hne Hg Hsnap g.
  destruct (snap_reaches_guides _ _ _ _ Halt Hne Hsnap)
    as (found & Hf & -> & ->).
  rewrite (snapGuides_fst _ _ Hg). fold g.
  split; intros H0.
  - destruct (snapGuides_vertical_zero state e Hg H0) as [Hguide Hflag].
    split; [exact Hflag|]. split; [exact Hguide|].
    exists found. split; [exact Hf|].
    assert (Hc : snapDecision e found g
                 = snapDecision e found (mkNearbyVertices None (horizontalPx g))).
    { destruct g as [v h]. cbn [verticalPx horizontalPx] in *. subst v.
      apply snapDecision_vertical_zero. }
    split; [exact Hc|]. rewrite Hc. apply snapDecision_no_vertical.
  - destruct (snapGuides_horizontal_zero state e Hg H0) as [Hguide Hflag].
    split; [exact Hflag|]. split; [exact Hguide|].
    exists found. split; [exact Hf|].
    assert (Hc : snapDecision e found g
                 = snapDecision e found (mkNearbyVertices (verticalPx g) None)).
    { destruct g as [v h]. cbn [verticalPx horizontalPx] in *. subst h.
      apply snapDecision_horizontal_zero. }
    split; [exact Hc|]. rewrite Hc. apply snapDecision_no_horizontal.
Qed.

(** The session whose only vertex lies on the prime meridian, with the
    pointer a thousandth of a degree east of it: the resolver matches the
    recorded longitude 0, and [snap] drops the match -- no guide endpoint
    is written, the flag is cleared and the raw coordinate is returned. *)
Lemma snap_meridian_run (turf : TurfLines) :
  snap meridianSession (pointerAt 0.001 5 false)
  = Ret (mkLngLat 0.001 5,
         mkState [marker "m" 0 50] [(0, 50)] (mkOptions false None true)
                 0 [] [] false false).
Proof.
  unfold snap, snapFeatures, snapGuides, snapDecision, getNearbyvertices,
    JS.truthy.
  simpl. js_numerals. simpl. js_numerals. reflexivity.
Qed.

(** C4.  On every axis the resolver finds the first recorded value within
    0.009 degrees of the query.  The claim that the guide endpoints then
    carry the matched value fails in [snap] when that value is 0: here the
    vertical match is the recorded longitude 0, and after the call the
    vertical guide still has no endpoint and its flag is false. *)
Theorem guide_match_zero_not_drawn :
  FirstWithin toleranceDeg 0.001 (map fst (vertices meridianSession)) (Some 0) /\
  (verticalPx (getNearbyvertices (vertices meridianSession) (mkLngLat 0.001 5))
   = Some 0) /\
  (forall turf : TurfLines,
      exists state',
        snap meridianSession (pointerAt 0.001 5 false)
        = Ret (mkLngLat 0.001 5, state') /\
        verticalGuide state' = [] /\
        showVerticalSnapLine state' = false).
Proof.
  assert (H : verticalPx (getNearbyvertices (vertices meridianSession)
                                            (mkLngLat 0.001 5)) = Some 0).
  { unfold getNearbyvertices. simpl. js_numerals. reflexivity. }
  split; [|split].
  - rewrite <- H. apply (getNearbyvertices_first _ (mkLngLat 0.001 5)).
  - exact H.
  - intros turf. eexists. split; [apply snap_meridian_run|]. split; reflexivity.
Qed.

Lemma snap_zero_guide_ignored_witness :
  let state := meridianSession in
  let e := pointerAt 0.001 5 false in
  let state' :=
    mkState [marker "m" 0 50] [(0, 50)] (mkOptions false None true)
            0 [] [] false false in
  let c := mkLngLat 0.001 5 in
  let g := getNearbyvertices (vertices state) (lngLat e) in
  (verticalPx g = Some 0 ->
   showVerticalSnapLine state' = false /\
   verticalGuide state' = verticalGuide state /\
   exists found,
     snapFeatures (turf := originLines) state e = Ret (Continue found) /\
     c = snapDecision e found (mkNearbyVertices None (horizontalPx g)) /\
     ((exists f, found = Some f /\ c = snapLatLng f) \/
      lng c = lng (lngLat e))) /\
  (horizontalPx g = Some 0 ->
   showHorizontalSnapLine state' = false /\
   horizontalGuide state' = horizontalGuide state /\
   exists found,
     snapFeatures (turf := originLines) state e = Ret (Continue found) /\
     c = snapDecision e found (mkNearbyVertices (verticalPx g) None) /\
     ((exists f, found = Some f /\ c = snapLatLng f) \/
      lat c = lat (lngLat e))).
Proof.
  apply (snap_zero_guide_ignored (turf := originLines)).
  - reflexivity.
  - discriminate.
  - reflexivity.
  - apply snap_meridian_run.
Defined.

(** ** What the selector returns *)

Section Selected.

Context {turf : TurfLines}.

Lemma segmentResult_ret (lines : Geometry) (np : Turf.NearestOnLine)
      (m : bool) (r : LayerDistances) :
  segmentResult lines np m = Ret r ->
  exists coords,
    lineCoordinates lines np = Some coords /\
    r = mkLayerDistances
          (mkLngLat (fst (Turf.coordinates np)) (snd (Turf.coordinates np)))
          (Some (let len := Z.of_nat (length coords) in
                 let i := if (Turf.index np + 1 >=? len)%Z
                          then (len - 2)%Z else Turf.index np in
                 JS.slice coords i (i + 2)))
          (Some (Turf.dist np)) (Some m) None.
Proof.
  unfold segmentResult. destruct (Turf.coordinates np) as [x y].
  destruct (lineCoordinates lines np) as [coords|]; [|discriminate].
  intros [= <-]. exists coords. split; reflexivity.
Qed.

(** No result of the kernel is flagged as a marker: the marker branch
    returns an object without [isMarker], the other branches run when the
    flag is false. *)
Lemma calcLayerDistances_isMarker (lngLat : LngLat) (l : Feature)
      (r : LayerDistances) :
  calcLayerDistances lngLat l = Ret r -> JS.truthyb (isMarker r) = false.
Proof.
  unfold calcLayerDistances.
  destruct (geometry l) as [c|c|c|c|c|c|t];
    repeat match goal with
      | |- JS.bind ?x _ = _ -> _ => destruct x; simpl; [|discriminate]
      end;
    try (intros [= <-]; reflexivity);
    intros H; apply segmentResult_ret in H; destruct H as (cs & _ & ->);
    reflexivity.
Qed.

(** The selector returns the result of the kernel on one of the
    candidates, with that candidate attached. *)
Lemma closest_fold_selects (lngLat : LngLat) (layers : list Feature)
      (acc : option LayerDistances) (cl : LayerDistances) :
  fold_left (closestStep lngLat) layers (Ret acc) = Ret (Some cl) ->
  acc = Some cl \/
  exists l r, In l layers /\ calcLayerDistances lngLat l = Ret r /\
              cl = withLayer r l.
Proof.
  revert acc. induction layers as [|h t IH]; simpl; intros acc H.
  - injection H as ->. auto.
  - destruct (calcLayerDistances lngLat h) as [res|msg] eqn:Hh; simpl in H.
    + destruct (replaces res acc).
      * apply IH in H. destruct H as [[= <-] | (l & r & Hin & Hl & ->)].
        -- right. exists h, res. auto.
        -- right. exists l, r. auto.
      * apply IH in H. destruct H as [-> | (l & r & Hin & Hl & ->)]; auto.
        right. exists l, r. auto.
    + rewrite closest_fold_throw in H. discriminate.
Qed.

Lemma calcClosestLayer_selects (lngLat : LngLat) (layers : list Feature)
      (cl : LayerDistances) :
  calcClosestLayer lngLat layers = Ret (Some cl) ->
  exists l r, In l layers /\ calcLayerDistances lngLat l = Ret r /\
              cl = withLayer r l.
Proof.
  intros H. unfold calcClosestLayer in H.
  destruct (closest_fold_selects lngLat layers None cl H) as [[=] | Hsel].
  exact Hsel.
Qed.

Lemma calcClosestLayer_isMarker (lngLat : LngLat) (layers : list Feature)
      (cl : LayerDistances) :
  calcClosestLayer lngLat layers = Ret (Some cl) ->
  JS.truthyb (isMarker cl) = false.
Proof.
  intros H. apply calcClosestLayer_selects in H.
  destruct H as (l & r & _ & Hr & ->). simpl.
  eapply calcLayerDistances_isMarker. exact Hr.
Qed.

Lemma orDefault_effectiveSnapPx (o : Options) :
  JS.orDefault match opt_snapOptions o with
               | Some so => snapPx so
               | None => None
               end 50
  = effectiveSnapPx o.
Proof.
  unfold effectiveSnapPx, JS.orDefault, JS.ifTruthy.
  destruct (opt_snapOptions o) as [so|]; [|reflexivity].
  destruct (snapPx so); reflexivity.
Qed.

(** The feature block of [snap] when the selector and the policy
    return. *)
Lemma snapFeatures_found (state : State) (e : Event) (cl : LayerDistances)
      (s : LngLat) :
  opt_snap (options state) = true ->
  calcClosestLayer (lngLat e) (snapList state) = Ret (Some cl) ->
  checkPrioritiySnapping cl (opt_snapOptions (options state))
                         (configuredPriority (options state)) = Ret s ->
  snapFeatures state e
  = Ret (Continue
           (Some (mkFeatureSnap
                    cl
                    (effectiveSnapPx (options state)
                     * metersPerPixel (lat (lngLat e)) (zoom state))
                    s))).
Proof.
  intros Hsnap Hcl Hs. unfold snapFeatures.
  rewrite Hsnap, lngLat_eta, Hcl. simpl.
  rewrite (calcClosestLayer_isMarker _ _ _ Hcl). simpl.
  unfold configuredPriority in Hs. rewrite Hs. simpl. rewrite orDefault_effectiveSnapPx. reflexivity.
Qed.

(** The final decision of the code against the wording of the
    specification, for guide values other than 0. *)
Lemma snapDecision_finalDecision (e : Event) (f : FeatureSnap) (d : R)
      (v h : option R) :
  distance (closestLayer f) = Some d ->
  (forall x, v = Some x -> x <> 0) -> (forall y, h = Some y -> y <> 0) ->
  snapDecision e (Some f) (mkNearbyVertices v h)
  = finalDecision (lngLat e) (snapLatLng f) d (minDistance f) v h.
Proof.
  intros Hd Hv Hh. unfold snapDecision, finalDecision, replaceMatched.
  cbn [verticalPx horizontalPx]. rewrite Hd. simpl. unfold JS.ltb.
  destruct (Rlt_dec (d * 1000) (minDistance f)); [reflexivity|].
  unfold JS.truthy, JS.ifTruthy.
  destruct v as [x|], h as [y|];
    repeat match goal with
      | |- context [Req_dec_T ?a 0] =>
          let Hz := fresh "Hz" in
          destruct (Req_dec_T a 0) as [Hz|Hz];
          [exfalso;
           first [ solve [eapply Hv; [reflexivity | exact Hz]]
                 | solve [eapply Hh; [reflexivity | exact Hz]] ] |]
      end; simpl; rewrite ?lngLat_eta; reflexivity.
Qed.

(** A call of [snap] on which the selector and the policy return. *)
Lemma snap_found (state : State) (e : Event) (cl : LayerDistances)
      (s : LngLat) :
  altKey e = false -> snapList state <> [] ->
  opt_snap (options state) = true ->
  calcClosestLayer (lngLat e) (snapList state) = Ret (Some cl) ->
  checkPrioritiySnapping cl (opt_snapOptions (options state))
                         (configuredPriority (options state)) = Ret s ->
  snap state e
  = Ret (snapDecision
           e
           (Some (mkFeatureSnap
                    cl
                    (effectiveSnapPx (options state)
                     * metersPerPixel (lat (lngLat e)) (zoom state))
                    s))
           (fst (snapGuides state e)),
         snd (snapGuides state e)).
Proof.
  intros Halt Hne Hsnap Hcl Hs. unfold snap. rewrite Halt.
  destruct (snapList state) as [|l0 t0] eqn:Hl; [contradiction|].
  cbn [length Nat.leb]. rewrite <- Hl in Hcl.
  rewrite (snapFeatures_found state e cl s Hsnap Hcl Hs). simpl.
  destruct (snapGuides state e) as [g st1]. reflexivity.
Qed.

End Selected.

(** C1 (as amended).  For a call of [snap] with candidates, no bypass and
    feature snapping enabled, on which the selector returns the closest
    candidate [cl] at distance [d] km and the policy resolves it to [s]:
    the call returns [s] when [d * 1000] is below the tolerance, and
    otherwise the raw coordinate with the component of every matched axis
    replaced by the guide value.  The tolerance is the pixel tolerance
    times [metersPerPixel(query latitude, zoom)], where the pixel tolerance
    is [snapPx] when it is configured and not 0, and 50 otherwise.  A guide
    matches when guides are enabled and a recorded value lies within the
    tolerance of the resolver; the statement covers guide values other
    than 0. *)
Theorem snap_final_decision {turf : TurfLines} (state : State) (e : Event)
        (cl : LayerDistances) (d : R) (s : LngLat) (v h : option R) :
  altKey e = false -> snapList state <> [] ->
  opt_snap (options state) = true ->
  calcClosestLayer (lngLat e) (snapList state) = Ret (Some cl) ->
  distance cl = Some d ->
  checkPrioritiySnapping cl (opt_snapOptions (options state))
                         (configuredPriority (options state)) = Ret s ->
  (if opt_guides (options state)
   then FirstWithin toleranceDeg (lng (lngLat e)) (map fst (vertices state)) v /\
        FirstWithin toleranceDeg (lat (lngLat e)) (map snd (vertices state)) h
   else v = None /\ h = None) ->
  (forall x, v = Some x -> x <> 0) -> (forall y, h = Some y -> y <> 0) ->
  exists state',
    snap state e
    = Ret (finalDecision
             (lngLat e) s d
             (effectiveSnapPx (options state)
              * metersPerPixel (lat (lngLat e)) (zoom state))
             v h,
           state').
Proof.
  intros Halt Hne Hsnap Hcl Hd Hs Hguides Hv Hh.
  rewrite (snap_found state e cl s Halt Hne Hsnap Hcl Hs).
  destruct (snapGuides state e) as [g st1] eqn:Hg. cbn [fst snd].
  exists st1. f_equal. f_equal.
  assert (Hgv : g = mkNearbyVertices v h).
  { replace g with (fst (snapGuides state e)) by (rewrite Hg; reflexivity).
    unfold snapGuides.
    destruct (opt_guides (options state)); cbn [fst].
    - destruct Hguides as [Hfv Hfh].
      destruct (getNearbyvertices_first (vertices state) (lngLat e))
        as [Hcv Hch].
      rewrite (FirstWithin_unique _ _ _ _ _ Hfv Hcv).
      rewrite (FirstWithin_unique _ _ _ _ _ Hfh Hch).
      destruct (getNearbyvertices _ _). reflexivity.
    - destruct Hguides as [-> ->]. reflexivity. }
  rewrite Hgv.
  apply (snapDecision_finalDecision e (mkFeatureSnap cl _ s) d v h Hd Hv Hh).
Qed.

(** The marker session: the only candidate is the marker one degree south
    of the pointer, at the distance of one degree of latitude. *)
Lemma markerSession_closest (turf : TurfLines) :
  calcClosestLayer (mkLngLat 0 0) [marker "m" 0 (-1)]
  = Ret (Some (mkLayerDistances
                 (mkLngLat 0 (-1)) None
                 (Some ((0 - -1) * PI / 180 * Turf.kilometersFactor))
                 None (Some (marker "m" 0 (-1))))).
Proof.
  unfold calcClosestLayer, closestStep, calcLayerDistances. simpl.
  rewrite haversine_meridian by lra. reflexivity.
Qed.

Lemma degree_in_meters_below_default :
  (0 - -1) * PI / 180 * Turf.kilometersFactor * 1000
  < 50 * metersPerPixel 0 0.
Proof.
  rewrite metersPerPixel_origin. unfold Turf.kilometersFactor.
  pose proof PI_4. pose proof PI_RGT_0. lra.
Qed.

Lemma snap_final_decision_witness :
  exists state',
    snap (turf := originLines) (markerSession None) (pointerAt 0 0 false)
    = Ret (finalDecision
             (mkLngLat 0 0) (mkLngLat 0 (-1))
             ((0 - -1) * PI / 180 * Turf.kilometersFactor)
             (effectiveSnapPx (options (markerSession None))
              * metersPerPixel 0 0)
             None None,
           state').
Proof.
  apply (snap_final_decision
           (turf := originLines) (markerSession None) (pointerAt 0 0 false)
           (mkLayerDistances
              (mkLngLat 0 (-1)) None
              (Some ((0 - -1) * PI / 180 * Turf.kilometersFactor))
              None (Some (marker "m" 0 (-1))))).
  - reflexivity.
  - discriminate.
  - reflexivity.
  - apply markerSession_closest.
  - reflexivity.
  - reflexivity.
  - simpl. split; reflexivity.
  - discriminate.
  - discriminate.
Defined.

(** C1 (as stated) fails when [snapPx] is configured as 0.  The marker is
    111 km from the pointer; with a pixel tolerance of 0 the claimed
    tolerance is 0 and the claimed result is the raw coordinate, while the
    code falls back to 50 pixels and returns the marker. *)
Lemma snap_zero_snapPx_counterexample :
  let state := markerSession (Some 0) in
  let e := pointerAt 0 0 false in
  let d := (0 - -1) * PI / 180 * Turf.kilometersFactor in
  (forall turf : TurfLines,
      (exists cl,
          calcClosestLayer (lngLat e) (snapList state) = Ret (Some cl) /\
          distance cl = Some d /\
          checkPrioritiySnapping cl (opt_snapOptions (options state))
                                 (configuredPriority (options state))
          = Ret (mkLngLat 0 (-1))) /\
      exists state', snap state e = Ret (mkLngLat 0 (-1), state')) /\
  finalDecision (lngLat e) (mkLngLat 0 (-1)) d
                (configuredSnapPx (options state)
                 * metersPerPixel (lat (lngLat e)) (zoom state))
                None None
  = mkLngLat 0 0 /\
  mkLngLat 0 (-1) <> mkLngLat 0 0.
Proof.
  cbv zeta. split; [|split].
  - intros turf.
    pose proof (markerSession_closest turf) as Hcl.
    split.
    + eexists. split; [exact Hcl|]. split; reflexivity.
    + eexists.
      rewrite (snap_found (markerSession (Some 0)) (pointerAt 0 0 false)
                          _ (mkLngLat 0 (-1)) eq_refl ltac:(discriminate)
                          eq_refl Hcl eq_refl).
      f_equal. f_equal.
      unfold snapDecision, effectiveSnapPx. simpl.
      destruct (Req_dec_T 0 0); [|lra].
      rewrite (proj2 (ltb_true _ _) degree_in_meters_below_default).
      reflexivity.
  - unfold finalDecision, configuredSnapPx, replaceMatched. simpl.
    destruct (Rlt_dec _ _) as [Hlt|_]; [|reflexivity].
    exfalso. unfold Turf.kilometersFactor in Hlt.
    pose proof PI_RGT_0. lra.
  - intros [= H]. lra.
Qed.

(** ** Snap resolution policy *)

Section Policy.

Context {turf : TurfLines}.

(** The policy on a two-point segment, with the distances computed. *)
Lemma checkPrioritiySnapping_pair (cl : LayerDistances) (A B : Position)
      (so : option SnapOptions) (prio : option R) :
  segment cl = Some [A; B] ->
  let C : Position := (lng (latlng cl), lat (latlng cl)) in
  let dA := Turf.haversine A C in
  let dB := Turf.haversine B C in
  let nearer := if JS.ltb dA dB then (Some A, dA) else (Some B, dB) in
  checkPrioritiySnapping cl so prio
  = (chosen <-
       (if midPointsEnabled so then
          M <- midpoint A B ;;
          if JS.ltb (Turf.haversine M C) dA && JS.ltb (Turf.haversine M C) dB
          then Ret (Some M, Turf.haversine M C)
          else Ret nearer
        else Ret nearer) ;;
     match (if JS.ltb (snd chosen) (priorityDistanceKm prio)
            then fst chosen else Some C) with
     | Some (x, y) => Ret (mkLngLat x y)
     | None => Throw "undefined is not iterable"
     end).
Proof.
  intros Hseg. cbv zeta.
  unfold checkPrioritiySnapping, snapToLineOrPolygon. rewrite Hseg.
  change (JS.index [A; B] 0) with (Some A).
  change (JS.index [A; B] 1) with (Some B).
  cbn -[JS.ltb Turf.haversine].
  fold (midPointsEnabled so). fold (priorityDistanceKm prio).
  destruct (JS.ltb (Turf.haversine A _) (Turf.haversine B _));
    destruct (midPointsEnabled so); cbn -[JS.ltb Turf.haversine];
    try reflexivity;
    destruct (midpoint A B) as [M|msg]; cbn -[JS.ltb Turf.haversine];
    try reflexivity;
    destruct (JS.ltb (Turf.haversine M _) (Turf.haversine A _) &&
              JS.ltb (Turf.haversine M _) (Turf.haversine B _));
    reflexivity.
Qed.

End Policy.

(** C2.  For a result with segment endpoints [A], [B] and nearest point
    [C]: [V] is the nearer of [A] and [B] to [C] and [vDist] its distance;
    when [snapToMidPoints] is enabled and the midpoint [M] of the segment
    is strictly nearer to [C] than both [A] and [B], [V] is [M] and [vDist]
    its distance; and the returned coordinate is [V] when
    [vDist < priorityDistanceKm] and [C] otherwise. *)
Theorem resolve_segment {turf : TurfLines} (cl : LayerDistances)
        (A B M : Position) (so : option SnapOptions) (prio : option R) :
  segment cl = Some [A; B] ->
  (midPointsEnabled so = true -> midpoint A B = Ret M) ->
  let C : Position := (lng (latlng cl), lat (latlng cl)) in
  let dA := Turf.haversine A C in
  let dB := Turf.haversine B C in
  let dM := Turf.haversine M C in
  exists (V : Position) (vDist : R),
    ((midPointsEnabled so = true /\ dM < dA /\ dM < dB /\
      V = M /\ vDist = dM) \/
     (~ (midPointsEnabled so = true /\ dM < dA /\ dM < dB) /\
      (V = A \/ V = B) /\ vDist = Turf.haversine V C /\
      vDist <= dA /\ vDist <= dB)) /\
    checkPrioritiySnapping cl so prio
    = Ret (if Rlt_dec vDist (priorityDistanceKm prio)
           then mkLngLat (fst V) (snd V) else latlng cl).
Proof.
  intros Hseg Hmid C dA dB dM.
  rewrite (checkPrioritiySnapping_pair cl A B so prio Hseg).
  fold C. fold dA. fold dB.
  assert (Hnear :
           forall chosen,
             chosen = (if JS.ltb dA dB then (Some A, dA) else (Some B, dB)) ->
             exists V, fst chosen = Some V /\ (V = A \/ V = B) /\
                       snd chosen = Turf.haversine V C /\
                       snd chosen <= dA /\ snd chosen <= dB).
  { intros chosen ->. destruct (JS.ltb dA dB) eqn:Hlt.
    - apply ltb_true in Hlt. exists A. cbn [fst snd]. fold dA.
      repeat split; auto; lra.
    - apply ltb_false in Hlt. exists B. cbn [fst snd]. fold dB.
      repeat split; auto; lra. }
  assert (Hfinal :
           forall (V : Position) (vd : R),
             match (if JS.ltb vd (priorityDistanceKm prio)
                    then Some V else Some C) with
             | Some (x, y) => Ret (mkLngLat x y)
             | None => Throw "undefined is not iterable"
             end
             = Ret (if Rlt_dec vd (priorityDistanceKm prio)
                    then mkLngLat (fst V) (snd V) else latlng cl)).
  { intros [x y] vd. unfold JS.ltb.
    destruct (Rlt_dec vd (priorityDistanceKm prio)); [reflexivity|].
    unfold C. rewrite lngLat_eta. reflexivity. }
  destruct (midPointsEnabled so) eqn:Hen.
  - rewrite (Hmid eq_refl). cbn [JS.bind]. fold dM.
    destruct (JS.ltb dM dA) eqn:HMA; destruct (JS.ltb dM dB) eqn:HMB;
      cbn [andb JS.bind].
    1: { apply ltb_true in HMA, HMB. exists M, dM. split.
         - left. auto.
         - cbn [fst snd]. apply Hfinal. }
    all: destruct (Hnear _ eq_refl) as (V & HV & HAB & Hd & HdA & HdB);
      exists V, (snd (if JS.ltb dA dB then (Some A, dA) else (Some B, dB)));
      (split;
       [ right; repeat split; auto;
         intros (_ & H1 & H2);
         apply ltb_true in H1, H2; congruence
       | rewrite HV; apply Hfinal ]).
  - cbn [JS.bind].
    destruct (Hnear _ eq_refl) as (V & HV & HAB & Hd & HdA & HdB).
    exists V, (snd (if JS.ltb dA dB then (Some A, dA) else (Some B, dB))).
    split.
    + right. repeat split; auto. intros (H & _). discriminate.
    + rewrite HV. apply Hfinal.
Qed.

Lemma resolve_segment_witness :
  let cl := mkLayerDistances (mkLngLat 0 1) (Some [(0, 0); (0, 4)])
                             (Some 0) (Some false) None in
  let so := Some (mkSnapOptions (Some true) None None) in
  let A : Position := (0, 0) in
  let B : Position := (0, 4) in
  let M : Position := ((0 + 0) / 2, (0 + 4) / 2) in
  let C : Position := (0, 1) in
  let dA := Turf.haversine A C in
  let dB := Turf.haversine B C in
  let dM := Turf.haversine M C in
  exists (V : Position) (vDist : R),
    ((midPointsEnabled so = true /\ dM < dA /\ dM < dB /\
      V = M /\ vDist = dM) \/
     (~ (midPointsEnabled so = true /\ dM < dA /\ dM < dB) /\
      (V = A \/ V = B) /\ vDist = Turf.haversine V C /\
      vDist <= dA /\ vDist <= dB)) /\
    checkPrioritiySnapping (turf := originLines) cl so (Some 2)
    = Ret (if Rlt_dec vDist (priorityDistanceKm (Some 2))
           then mkLngLat (fst V) (snd V) else latlng cl).
Proof.
  cbv zeta.
  apply (resolve_segment
           (turf := originLines)
           (mkLayerDistances (mkLngLat 0 1) (Some [(0, 0); (0, 4)])
                             (Some 0) (Some false) None)
           (0, 0) (0, 4) ((0 + 0) / 2, (0 + 4) / 2)
           (Some (mkSnapOptions (Some true) None None)) (Some 2)).
  - reflexivity.
  - intros _. reflexivity.
Defined.

(** ** A query on a vertex of a line *)

Section OnVertex.

Context {turf : TurfLines}.


End OnVertex.



(** ** The segment of a line-like candidate *)

Section Segments.

Context {turf : TurfLines}.



Lemma lineString_ret (coords : list Position) :
  (2 <= length coords)%nat -> Turf.lineString coords = Ret (LineString coords).
Proof.
  intros H. unfold Turf.lineString.
  destruct (Nat.ltb_spec (length coords) 2); [lia | reflexivity].
Qed.

Lemma mapM_lineString (seqs : list (list Position)) :
  Forall (fun coords => (2 <= length coords)%nat) seqs ->
  JS.mapM Turf.lineString seqs = Ret (map LineString seqs).
Proof.
  induction 1 as [|cs t Hcs _ IH]; simpl.
  - reflexivity.
  - rewrite lineString_ret by exact Hcs. simpl. rewrite IH. reflexivity.
Qed.

Lemma polygonLineStrings_ret (rings : list (list Position)) :
  rings <> [] ->
  Forall (fun coords => (2 <= length coords)%nat) rings ->
  polygonLineStrings rings = Ret (map LineString rings).
Proof.
  intros Hne Hall. unfold polygonLineStrings, Turf.coordsToLine.
  destruct rings as [|r [|r' t]]; [contradiction | |].
  - inversion Hall as [|? ? Hr _]; subst. simpl.
    rewrite lineString_ret by exact Hr. simpl.
    rewrite lineString_ret by exact Hr. reflexivity.
  - cbn [length Nat.ltb Nat.leb JS.bind]. apply mapM_lineString, Hall.
Qed.

(** The boundary of one polygon of a [MultiPolygon]. *)
Lemma coordsToLine_ret (rings : list (list Position)) :
  rings <> [] ->
  Forall (fun coords => (2 <= length coords)%nat) rings ->
  exists g, Turf.coordsToLine rings = Ret g /\
            match g with
            | LineString coords => [coords]
            | MultiLineString coords => coords
            | _ => []
            end = rings.
Proof.
  intros Hne Hall. unfold Turf.coordsToLine.
  destruct rings as [|r [|r' t]]; [contradiction | |].
  - inversion Hall as [|? ? Hr _]; subst. simpl.
    rewrite lineString_ret by exact Hr. eauto.
  - cbn [length Nat.ltb Nat.leb]. eauto.
Qed.

Lemma multiPolygonLineStrings_ret (polys : list (list (list Position))) :
  Forall (fun rings => rings <> []) polys ->
  Forall (fun coords => (2 <= length coords)%nat) (concat polys) ->
  multiPolygonLineStrings polys = Ret (map LineString (concat polys)).
Proof.
  intros Hne Hall. unfold multiPolygonLineStrings.
  assert (Hf : exists features,
             JS.mapM Turf.coordsToLine polys = Ret features /\
             flat_map (fun feat =>
                         match feat with
                         | LineString coords => [coords]
                         | MultiLineString coords => coords
                         | _ => []
                         end) features = concat polys).
  { induction polys as [|rings t IH]; simpl.
    - exists []. auto.
    - inversion Hne as [|? ? Hr Ht]; subst.
      simpl in Hall. apply Forall_app in Hall. destruct Hall as [Hall1 Hall2].
      destruct (coordsToLine_ret rings Hr Hall1) as (g & -> & Hg).
      destruct (IH Ht Hall2) as (fs & -> & Hfs).
      simpl. exists (g :: fs). split; [reflexivity|].
      simpl. rewrite Hg, Hfs. reflexivity. }
  destruct Hf as (features & Hm & Hfm). rewrite Hm. cbn [JS.bind].
  rewrite Hfm. apply mapM_lineString, Hall.
Qed.


End Segments.




(** ** Malformed candidates *)

Section Malformed.

Context {turf : TurfLines}.

Lemma calcLayerDistances_rejected (lngLat : LngLat) (l : Feature) :
  rejected (geometry l) -> exists msg, calcLayerDistances lngLat l = Throw msg.
Proof.
  unfold calcLayerDistances.
  destruct (geometry l) as [[|x c]|[|p c]|cs|css|[|r rings]|[|p polys]|t];
    try contradiction; intros _; try (simpl; eauto; fail).
  destruct (nearestPointOnLine (Unsupported t) _) as [np|msg]; simpl.
  - unfold segmentResult. destruct (Turf.coordinates np). simpl. eauto.
  - eauto.
Qed.

(** On an empty [LineString] the kernel hands the candidate to
    [nearestPointOnLine]; when that returns, the kernel returns a result
    with an empty segment and the distance turf reported. *)
Lemma calcLayerDistances_empty_line (lngLat : LngLat) (i : string)
      (np : Turf.NearestOnLine) :
  nearestPointOnLine (LineString []) (lng lngLat, lat lngLat) = Ret np ->
  exists r, calcLayerDistances lngLat (mkFeature i (LineString [])) = Ret r /\
            segment r = Some [] /\ distance r = Some (Turf.dist np).
Proof.
  intros Hnp. unfold calcLayerDistances. cbn [geometry]. rewrite Hnp.
  cbn [JS.bind]. unfold segmentResult. destruct (Turf.coordinates np).
  cbn [lineCoordinates]. eexists. split; [reflexivity|].
  cbn [segment distance]. split; [|reflexivity].
  unfold JS.slice. rewrite skipn_nil, firstn_nil. reflexivity.
Qed.

(** The comparison of the selector. *)
Lemma replaces_absent_never (results held : LayerDistances) (d : R) :
  distance results = None -> distance held = Some d ->
  replaces results (Some held) = false.
Proof. intros Hr Hh. unfold replaces. simpl. rewrite Hh, Hr. reflexivity. Qed.

Lemma replaces_over_absent (results : LayerDistances)
      (held : option LayerDistances) :
  distanceOf held = None -> replaces results held = true.
Proof. intros Hh. unfold replaces. rewrite Hh. reflexivity. Qed.

Lemma replaces_defined (results held : LayerDistances) (d d' : R) :
  distance results = Some d -> distance held = Some d' ->
  replaces results (Some held) = true <-> d < d'.
Proof.
  intros Hr Hh. unfold replaces. simpl. rewrite Hh, Hr. simpl.
  apply ltb_true.
Qed.

End Malformed.

(** C5 (as amended).  The kernel has no guard for malformed geometry: on a
    candidate of an unsupported type, or a [Point], [MultiPoint],
    [Polygon] or [MultiPolygon] whose coordinate array is empty, it
    throws, and the selector throws on every candidate list that contains
    such a candidate.  In the comparison of the selector a result whose
    distance is absent never replaces a held result whose distance is
    defined, and every result replaces the empty object or a held result
    whose distance is absent. *)
Theorem malformed_candidate_throws {turf : TurfLines} (lngLat : LngLat)
        (layers : list Feature) (l : Feature) :
  In l layers -> rejected (geometry l) ->
  (exists msg, calcLayerDistances lngLat l = Throw msg) /\
  (exists msg, calcClosestLayer lngLat layers = Throw msg) /\
  (forall results held d,
      distance results = None -> distance held = Some d ->
      replaces results (Some held) = false) /\
  (forall results held,
      distanceOf held = None -> replaces results held = true).
Proof.
  intros Hin Hbad.
  pose proof (calcLayerDistances_rejected lngLat l Hbad) as Hthrow.
  split; [exact Hthrow|]. split.
  - eapply calcClosestLayer_throws; eauto.
  - split.
    + apply replaces_absent_never.
    + apply replaces_over_absent.
Qed.

Lemma malformed_candidate_throws_witness :
  let good := marker "m" 0 (-1) in
  let bad := mkFeature "bad" (Point []) in
  (exists msg,
      calcLayerDistances (turf := originLines) (mkLngLat 0 0) bad = Throw msg) /\
  (exists msg,
      calcClosestLayer (turf := originLines) (mkLngLat 0 0) [good; bad]
      = Throw msg) /\
  (forall results held d,
      distance results = None -> distance held = Some d ->
      replaces results (Some held) = false) /\
  (forall results held,
      distanceOf held = None -> replaces results held = true).
Proof.
  cbv zeta.
  apply (malformed_candidate_throws
           (turf := originLines) (mkLngLat 0 0)
           [marker "m" 0 (-1); mkFeature "bad" (Point [])]
           (mkFeature "bad" (Point []))).
  - right. left. reflexivity.
  - exact I.
Defined.

(** C5 (as stated) fails: with the marker alone the selector selects it;
    with a [Point] whose coordinate array is empty added to the list, the
    kernel throws on that candidate instead of returning a no-result, and
    the selector throws instead of selecting the marker. *)
Lemma malformed_candidate_counterexample :
  let good := marker "m" 0 (-1) in
  let bad := mkFeature "bad" (Point []) in
  malformed (geometry bad) /\
  (forall turf : TurfLines,
      (exists cl, calcClosestLayer (mkLngLat 0 0) [good] = Ret (Some cl) /\
                  layer cl = Some good) /\
      calcLayerDistances (mkLngLat 0 0) bad
      = Throw "coord must be GeoJSON Point or an Array of numbers" /\
      calcClosestLayer (mkLngLat 0 0) [good; bad]
      = Throw "coord must be GeoJSON Point or an Array of numbers").
Proof.
  cbv zeta. split; [exact I|]. intros turf. split; [|split].
  - eexists. split; [apply markerSession_closest | reflexivity].
  - reflexivity.
  - change (calcClosestLayer (mkLngLat 0 0)
                             [marker "m" 0 (-1); mkFeature "bad" (Point [])])
      with (closestStep (mkLngLat 0 0)
                        (calcClosestLayer (mkLngLat 0 0) [marker "m" 0 (-1)])
                        (mkFeature "bad" (Point []))).
    rewrite markerSession_closest. reflexivity.
Qed.

(** * Further properties of the code *)

(** ** Building the candidate list *)

Section SnapList.

Lemma addVertices_position (p : Position) (vertices : list Value) :
  addVerticesToList (positionArray p) vertices
  = vertices ++ [positionArray p].
Proof. reflexivity. Qed.

Lemma addVertices_positions (cs : list Position) (vertices : list Value) :
  fold_left (fun vs coord => addVerticesToList coord vs)
            (map positionArray cs) vertices
  = vertices ++ map positionArray cs.
Proof.
  revert vertices. induction cs as [|p t IH]; intros vertices; simpl.
  - rewrite app_nil_r. reflexivity.
  - rewrite IH, <- app_assoc. reflexivity.
Qed.

Lemma addVertices_line (cs : list Position) (vertices : list Value) :
  addVerticesToList (Arr (map positionArray cs)) vertices
  = vertices ++ map positionArray cs.
Proof.
  destruct cs as [|p t].
  - simpl. rewrite app_nil_r. reflexivity.
  - change (addVerticesToList (Arr (map positionArray (p :: t))) vertices)
      with (fold_left (fun vs coord => addVerticesToList coord vs)
                      (map positionArray (p :: t)) vertices).
    apply addVertices_positions.
Qed.

Lemma addVertices_lines (css : list (list Position)) (vertices : list Value) :
  fold_left (fun vs coord => addVerticesToList coord vs)
            (map (fun cs => Arr (map positionArray cs)) css) vertices
  = vertices ++ map positionArray (concat css).
Proof.
  revert vertices. induction css as [|cs t IH]; intros vertices.
  - simpl. rewrite app_nil_r. reflexivity.
  - cbn [map fold_left concat]. rewrite addVertices_line, IH.
    rewrite map_app, app_assoc. reflexivity.
Qed.

Lemma addVertices_rings (css : list (list Position)) (vertices : list Value) :
  addVerticesToList (Arr (map (fun cs => Arr (map positionArray cs)) css))
                    vertices
  = vertices ++ map positionArray (concat css).
Proof.
  destruct css as [|cs t].
  - simpl. rewrite app_nil_r. reflexivity.
  - change (addVerticesToList
              (Arr (map (fun cs => Arr (map positionArray cs)) (cs :: t)))
              vertices)
      with (fold_left (fun vs coord => addVerticesToList coord vs)
                      (map (fun cs => Arr (map positionArray cs)) (cs :: t))
                      vertices).
    apply addVertices_lines.
Qed.

Lemma addVertices_polygons (polys : list (list (list Position)))
      (vertices : list Value) :
  fold_left (fun vs coord => addVerticesToList coord vs)
            (map (fun css =>
                    Arr (map (fun cs => Arr (map positionArray cs)) css))
                 polys)
            vertices
  = vertices ++ map positionArray (concat (map (@concat Position) polys)).
Proof.
  revert vertices. induction polys as [|css t IH]; intros vertices.
  - simpl. rewrite app_nil_r. reflexivity.
  - cbn [map fold_left concat]. rewrite addVertices_rings, IH.
    rewrite map_app, app_assoc. reflexivity.
Qed.

(** On the coordinates of a geometry, [addVerticesToList] pushes the
    positions of the geometry, in order. *)
Lemma addVertices_geometry (g : Geometry) (vertices : list Value) :
  addVerticesToList (coordinatesValue g) vertices
  = vertices ++ map positionArray (positionsOf g).
Proof.
  destruct g as [c|cs|cs|css|css|polys|t]; cbn [coordinatesValue positionsOf].
  - destruct c as [|x [|y [|z r]]]; simpl; rewrite ?app_nil_r; reflexivity.
  - apply addVertices_line.
  - apply addVertices_line.
  - apply addVertices_rings.
  - apply addVertices_rings.
  - destruct polys as [|css t].
    + simpl. rewrite app_nil_r. reflexivity.
    + change (addVerticesToList
                (Arr (map (fun css =>
                             Arr (map (fun cs => Arr (map positionArray cs))
                                      css))
                          (css :: t)))
                vertices)
        with (fold_left (fun vs coord => addVerticesToList coord vs)
                        (map (fun css =>
                                Arr (map (fun cs => Arr (map positionArray cs))
                                         css))
                             (css :: t))
                        vertices).
      apply addVertices_polygons.
  - simpl. rewrite app_nil_r. reflexivity.
Qed.

(** The loop of [createSnapList] from any intermediate pair of arrays. *)
Lemma createSnapList_loop (features : list Feature) (currentFeature : Feature)
      (snapList : list Feature) (vertices : list Value) :
  let kept := filter (fun f => negb (skipped f currentFeature)) features in
  fold_left
    (fun acc feature =>
       let '(snapList, vertices) := acc in
       if skipped feature currentFeature then (snapList, vertices)
       else (snapList ++ [feature],
             addVerticesToList (coordinatesValue (geometry feature)) vertices))
    features (snapList, vertices)
  = (snapList ++ kept,
     vertices
       ++ map positionArray (flat_map (fun f => positionsOf (geometry f)) kept)).
Proof.
  revert snapList vertices.
  induction features as [|f t IH]; intros snapList vertices; cbn [fold_left filter].
  - simpl. rewrite !app_nil_r. reflexivity.
  - destruct (skipped f currentFeature); cbn [negb].
    + apply IH.
    + rewrite IH, addVertices_geometry. cbn [flat_map].
      rewrite map_app, <- !app_assoc. reflexivity.
Qed.

Lemma skipped_false (f currentFeature : Feature) :
  skipped f currentFeature = false <-> snappable currentFeature f.
Proof.
  unfold skipped, snappable. rewrite !orb_false_iff, !String.eqb_neq. tauto.
Qed.

End SnapList.

(** X1.  The candidate list built by [createSnapList] holds exactly the
    features that are neither one of the two guides nor the feature being
    drawn, in the order of the input; in particular a guide feature made by
    [getGuideFeature] and the current feature are never candidates. *)
Theorem createSnapList_candidates (features : list Feature)
        (currentFeature : Feature) :
  let snapList := fst (createSnapList features currentFeature) in
  snapList = filter (fun f => negb (skipped f currentFeature)) features /\
  (forall f, In f snapList <-> In f features /\ snappable currentFeature f) /\
  ~ In (getGuideFeature IDS.VERTICAL_GUIDE) snapList /\
  ~ In (getGuideFeature IDS.HORIZONTAL_GUIDE) snapList /\
  ~ In currentFeature snapList.
Proof.
  cbv zeta. unfold createSnapList. rewrite createSnapList_loop. cbn [fst app].
  assert (Hin : forall f,
             In f (filter (fun f => negb (skipped f currentFeature)) features)
             <-> In f features /\ snappable currentFeature f).
  { intros f. rewrite filter_In, negb_true_iff, skipped_false. tauto. }
  split; [reflexivity|]. split; [exact Hin|].
  repeat split; intros H; apply Hin in H; destruct H as (_ & Hh & Hv & Hc).
  - apply Hv. reflexivity.
  - apply Hh. reflexivity.
  - apply Hc. reflexivity.
Qed.

(** X2.  The vertices recorded by [createSnapList] are exactly the
    positions of the candidates, in candidate order and then in coordinate
    order; every recorded vertex is a two-number position.  A [Point]
    contributes its position only when its coordinate array holds exactly
    two numbers, and a geometry of an unsupported type contributes
    nothing. *)
Theorem createSnapList_vertices (features : list Feature)
        (currentFeature : Feature) :
  let '(snapList, vertices) := createSnapList features currentFeature in
  vertices
  = map positionArray (flat_map (fun f => positionsOf (geometry f)) snapList).
Proof.
  unfold createSnapList. rewrite createSnapList_loop. reflexivity.
Qed.

(** ** Hiding and showing the guides *)

Section GuideVisibility.

Context {turf : TurfLines}.

Lemma shouldHideGuide_vertical (state : State) :
  shouldHideGuide state IDS.VERTICAL_GUIDE
  = negb (opt_guides (options state)) || negb (showVerticalSnapLine state).
Proof.
  unfold shouldHideGuide. rewrite String.eqb_refl. cbn [andb].
  destruct (negb _ || negb _); [reflexivity|].
  cbn [andb orb]. reflexivity.
Qed.

Lemma shouldHideGuide_horizontal (state : State) :
  shouldHideGuide state IDS.HORIZONTAL_GUIDE
  = negb (opt_guides (options state)) || negb (showHorizontalSnapLine state).
Proof.
  unfold shouldHideGuide. rewrite String.eqb_refl.
  replace (String.eqb IDS.HORIZONTAL_GUIDE IDS.VERTICAL_GUIDE) with false
    by reflexivity.
  cbn [andb]. destruct (negb _ || negb _); reflexivity.
Qed.

Lemma shouldHideGuide_other (state : State) (i : string) :
  i <> IDS.VERTICAL_GUIDE -> i <> IDS.HORIZONTAL_GUIDE ->
  shouldHideGuide state i = false.
Proof.
  intros Hv Hh. unfold shouldHideGuide.
  apply String.eqb_neq in Hv, Hh. rewrite Hv, Hh. reflexivity.
Qed.

(** The flags that the guide block leaves, in terms of the vertex set. *)
Lemma snapGuides_flags (state : State) (e : Event) :
  opt_guides (options state) = true ->
  (showVerticalSnapLine (snd (snapGuides state e)) = true <->
   exists v, UsableGuide (lng (lngLat e)) (map fst (vertices state)) v) /\
  (showHorizontalSnapLine (snd (snapGuides state e)) = true <->
   exists h, UsableGuide (lat (lngLat e)) (map snd (vertices state)) h).
Proof.
  intros Hg.
  destruct (getNearbyvertices_first (vertices state) (lngLat e)) as [Hv Hh].
  unfold snapGuides. rewrite Hg.
  cbn [snd showVerticalSnapLine showHorizontalSnapLine].
  rewrite !truthy_true. unfold UsableGuide.
  split; split.
  - intros (x & Hx & Hnz). exists x. rewrite Hx in Hv. auto.
  - intros (x & Hfx & Hnz). exists x. split; [|exact Hnz].
    eapply FirstWithin_unique; eauto.
  - intros (y & Hy & Hnz). exists y. rewrite Hy in Hh. auto.
  - intros (y & Hfy & Hnz). exists y. split; [|exact Hnz].
    eapply FirstWithin_unique; eauto.
Qed.

End GuideVisibility.

(** X3.  After a call of [snap] with the bypass modifier held,
    [shouldHideGuide] hides both guides, whatever the options; and no
    feature other than the two guides is ever hidden. *)
Theorem bypass_hides_guides {turf : TurfLines} (state state' : State)
        (e : Event) (c : LngLat) :
  altKey e = true -> snap state e = Ret (c, state') ->
  shouldHideGuide state' IDS.VERTICAL_GUIDE = true /\
  shouldHideGuide state' IDS.HORIZONTAL_GUIDE = true /\
  (forall (anyState : State) (i : string),
      i <> IDS.VERTICAL_GUIDE -> i <> IDS.HORIZONTAL_GUIDE ->
      shouldHideGuide anyState i = false).
Proof.
  intros Halt. unfold snap. rewrite Halt. intros [= _ <-].
  rewrite shouldHideGuide_vertical, shouldHideGuide_horizontal.
  cbn [showVerticalSnapLine showHorizontalSnapLine negb].
  rewrite !orb_true_r. repeat split.
  intros anyState i. apply shouldHideGuide_other.
Qed.

Lemma bypass_hides_guides_witness :
  let state' :=
    mkState [marker "m" 0 50] [(0, 50)] (mkOptions false None true)
            0 [] [] false false in
  shouldHideGuide state' IDS.VERTICAL_GUIDE = true /\
  shouldHideGuide state' IDS.HORIZONTAL_GUIDE = true /\
  (forall (anyState : State) (i : string),
      i <> IDS.VERTICAL_GUIDE -> i <> IDS.HORIZONTAL_GUIDE ->
      shouldHideGuide anyState i = false).
Proof.
  cbv zeta.
  apply (bypass_hides_guides
           (turf := originLines) meridianSession _
           (pointerAt 0.001 5 true) (mkLngLat 0.001 5)).
  - reflexivity.
  - reflexivity.
Defined.

(** X4.  After a call of [snap] that reaches the guide block (guides
    enabled, no bypass, candidates present), a guide is shown by
    [shouldHideGuide] exactly when the first recorded value within 0.009
    degrees on its axis exists and is not 0; and then the two endpoints of
    the guide carry that value and lie 10 degrees on either side of the
    pointer along the other axis. *)
Theorem guide_shown_iff_usable {turf : TurfLines} (state state' : State)
        (e : Event) (c : LngLat) :
  altKey e = false -> snapList state <> [] ->
  opt_guides (options state) = true ->
  snap state e = Ret (c, state') ->
  (shouldHideGuide state' IDS.VERTICAL_GUIDE = false <->
   exists v, UsableGuide (lng (lngLat e)) (map fst (vertices state)) v) /\
  (forall v,
      UsableGuide (lng (lngLat e)) (map fst (vertices state)) v ->
      exists rest,
        verticalGuide state'
        = Some (v, lat (lngLat e) + 10) :: Some (v, lat (lngLat e) - 10)
               :: rest) /\
  (shouldHideGuide state' IDS.HORIZONTAL_GUIDE = false <->
   exists h, UsableGuide (lat (lngLat e)) (map snd (vertices state)) h) /\
  (forall h,
      UsableGuide (lat (lngLat e)) (map snd (vertices state)) h ->
      exists rest,
        horizontalGuide state'
        = Some (lng (lngLat e) + 10, h) :: Some (lng (lngLat e) - 10, h)
               :: rest).
Proof.
  intros Halt Hne Hg Hsnap.
  destruct (snap_reaches_guides _ _ _ _ Halt Hne Hsnap) as (found & _ & _ & ->).
  destruct (snapGuides_flags state e Hg) as [Hfv Hfh].
  destruct (snapGuides_frame state e) as (_ & _ & Ho & _).
  destruct (getNearbyvertices_first (vertices state) (lngLat e)) as [Hv Hh].
  rewrite shouldHideGuide_vertical, shouldHideGuide_horizontal, Ho, Hg.
  cbn [negb orb]. rewrite !negb_false_iff.
  split; [exact Hfv|]. split; [|split; [exact Hfh|]].
  - intros v [Hfw Hnz].
    destruct (snapGuides_vertical_drawn state e v Hg) as (rest & Hrest & _);
      [eapply FirstWithin_unique; eauto | exact Hnz |].
    exists rest. exact Hrest.
  - intros h [Hfw Hnz].
    destruct (snapGuides_horizontal_drawn state e h Hg) as (rest & Hrest & _);
      [eapply FirstWithin_unique; eauto | exact Hnz |].
    exists rest. exact Hrest.
Qed.

Lemma guide_shown_iff_usable_witness :
  let state :=
    mkState [marker "m" 10 20] [(10, 20)] (mkOptions false None true)
            0 [] [] false false in
  let state' :=
    mkState [marker "m" 10 20] [(10, 20)] (mkOptions false None true)
            0 [Some (10, 50 + 10); Some (10, 50 - 10)] [] true false in
  (shouldHideGuide state' IDS.VERTICAL_GUIDE = false <->
   exists v, UsableGuide 10.0005 (map fst (vertices state)) v) /\
  (forall v,
      UsableGuide 10.0005 (map fst (vertices state)) v ->
      exists rest,
        verticalGuide state' = Some (v, 50 + 10) :: Some (v, 50 - 10) :: rest) /\
  (shouldHideGuide state' IDS.HORIZONTAL_GUIDE = false <->
   exists h, UsableGuide 50 (map snd (vertices state)) h) /\
  (forall h,
      UsableGuide 50 (map snd (vertices state)) h ->
      exists rest,
        horizontalGuide state'
        = Some (10.0005 + 10, h) :: Some (10.0005 - 10, h) :: rest).
Proof.
  cbv zeta.
  apply (guide_shown_iff_usable
           (turf := originLines) _ _ (pointerAt 10.0005 50 false)
           (mkLngLat 10 50)).
  - reflexivity.
  - discriminate.
  - reflexivity.
  - exact snap_guide_run.
Defined.

(** ** The minimum search of the selector *)

Section Minimum.

Context {turf : TurfLines}.



End Minimum.

(** X5.  When the selector returns, it returns the empty object exactly
    when the candidate list is empty. *)
Theorem calcClosestLayer_empty_iff {turf : TurfLines} (lngLat : LngLat)
        (layers : list Feature) :
  calcClosestLayer lngLat layers = Ret None <-> layers = [].
Proof.
  split.
  - intros H. destruct layers as [|l t]; [reflexivity|].
    destruct (calcClosestLayer_nonempty lngLat (l :: t) None) as [r Hr];
      [discriminate | exact H | discriminate].
  - intros ->. reflexivity.
Qed.



(** ** The nearest of several lines *)

Section NearestLine.

Context {turf : TurfLines}.

(** The head of a stable sort by increasing key is the first element of
    least key. *)
Lemma sortBy_head (A : Type) (key : A -> R) (l : list A) (x : A)
      (rest : list A) :
  JS.sortBy key l = x :: rest ->
  exists l1 l2,
    l = l1 ++ x :: l2 /\
    (forall y, In y l1 -> key x < key y) /\
    (forall y, In y l2 -> key x <= key y).
Proof.
  revert x rest. induction l as [|a t IH]; intros x rest H.
  - discriminate.
  - unfold JS.sortBy in H. cbn [fold_right] in H.
    fold (JS.sortBy key t) in H.
    destruct (JS.sortBy key t) as [|h s] eqn:Hs.
    + injection H as <- <-.
      assert (t = []) as ->.
      { destruct t as [|b t']; [reflexivity|].
        exfalso. eapply (sortBy_nonempty A key (b :: t')); [discriminate|].
        exact Hs. }
      exists [], []. repeat split; intros y [].
    + destruct (IH h s eq_refl) as (l1 & l2 & -> & Hb & Ha).
      cbn [JS.insertBy] in H.
      destruct (JS.ltb (key h) (key a)) eqn:Hlt.
      * injection H as <- _. apply ltb_true in Hlt.
        exists (a :: l1), l2. repeat split; auto.
        intros y [<- | Hin]; auto.
      * injection H as <- _. apply ltb_false in Hlt.
        exists [], (l1 ++ h :: l2). repeat split.
        -- intros y [].
        -- intros y Hin. apply in_app_or in Hin.
           destruct Hin as [Hin | [<- | Hin]].
           ++ pose proof (Hb y Hin). lra.
           ++ lra.
           ++ pose proof (Ha y Hin). lra.
Qed.

(** The elements that [map] with a throwing callback returns, split where
    its argument is split. *)
Lemma mapM_split (A B : Type) (f : A -> Exc B) (l : list A) (r1 : list B)
      (y : B) (r2 : list B) :
  JS.mapM f l = Ret (r1 ++ y :: r2) ->
  exists l1 x l2,
    l = l1 ++ x :: l2 /\ JS.mapM f l1 = Ret r1 /\ f x = Ret y /\
    JS.mapM f l2 = Ret r2.
Proof.
  revert r1. induction l as [|a t IH]; intros r1 H; simpl in H.
  - destruct r1; discriminate.
  - destruct (f a) as [b|] eqn:Ha; simpl in H; [|discriminate].
    destruct (JS.mapM f t) as [bs|] eqn:Ht; simpl in H; [|discriminate].
    injection H as H. destruct r1 as [|b' r1]; simpl in H.
    + injection H as <- ->. exists [], a, t. simpl. auto.
    + injection H as <- ->.
      destruct (IH r1 eq_refl) as (l1 & x & l2 & -> & H1 & Hx & H2).
      exists (a :: l1), x, l2. simpl. rewrite Ha, H1. simpl. auto.
Qed.

End NearestLine.

(** X7.  [getFeatureWithNearestPoint] returns the first line of least
    distance: the point it returns is the nearest point of the line it
    returns, every line before that one is strictly farther and no line
    after it is nearer.  On an empty list of lines it throws. *)
Theorem getFeatureWithNearestPoint_first_nearest {turf : TurfLines}
        (lineStrings : list Geometry) (P : Position) (fp : FeaturePoint) :
  getFeatureWithNearestPoint lineStrings P = Ret fp ->
  (exists l1 l2,
      lineStrings = l1 ++ feature fp :: l2 /\
      nearestPointOnLine (feature fp) P = Ret (point fp) /\
      (forall g np, In g l1 -> nearestPointOnLine g P = Ret np ->
                    Turf.dist (point fp) < Turf.dist np) /\
      (forall g np, In g l2 -> nearestPointOnLine g P = Ret np ->
                    Turf.dist (point fp) <= Turf.dist np)) /\
  (exists msg, getFeatureWithNearestPoint [] P = Throw msg).
Proof.
  intros H. split; [|unfold getFeatureWithNearestPoint; simpl; eauto].
  unfold getFeatureWithNearestPoint in H.
  set (f := fun feat => pt <- nearestPointOnLine feat P ;;
                        Ret (mkFeaturePoint feat pt)) in H.
  destruct (JS.mapM f lineStrings) as [r|msg] eqn:Hr; simpl in H;
    [|discriminate].
  destruct (JS.sortBy _ r) as [|first rest] eqn:Hs; [discriminate|].
  injection H as ->.
  destruct (sortBy_head _ _ _ _ _ Hs) as (r1 & r2 & -> & Hb & Ha).
  destruct (mapM_split _ _ _ _ _ _ _ Hr) as (l1 & x & l2 & -> & H1 & Hx & H2).
  assert (Hf : forall g y, f g = Ret y ->
                           feature y = g /\
                           nearestPointOnLine g P = Ret (point y)).
  { intros g y Hg. unfold f in Hg.
    destruct (nearestPointOnLine g P) as [np|]; simpl in Hg; [|discriminate].
    injection Hg as <-. auto. }
  destruct (Hf _ _ Hx) as [Hfeat Hnp]. subst x.
  assert (Hrel : forall l r g np,
             JS.mapM f l = Ret r -> In g l ->
             nearestPointOnLine g P = Ret np ->
             exists y, In y r /\ point y = np).
  { intros l r g np Hm Hin Hg. apply mapM_ret in Hm.
    induction Hm as [|a b l' r' Hab _ IH]; [destruct Hin|].
    destruct Hin as [-> | Hin].
    - destruct (Hf _ _ Hab) as [_ Hb']. rewrite Hg in Hb'.
      injection Hb' as ->. exists b. split; [left|]; reflexivity.
    - destruct (IH Hin) as (y & Hy & Hp). exists y. split; [right|]; auto. }
  exists l1, l2. repeat split; auto.
  - intros g np Hin Hg.
    destruct (Hrel _ _ _ _ H1 Hin Hg) as (y & Hy & <-). apply Hb, Hy.
  - intros g np Hin Hg.
    destruct (Hrel _ _ _ _ H2 Hin Hg) as (y & Hy & <-). apply Ha, Hy.
Qed.

Lemma getFeatureWithNearestPoint_first_nearest_witness :
  let np := Turf.mkNearestOnLine (0, 0) 0 1 0 in
  let a := LineString [(0, 0); (0, 1)] in
  let b := LineString [(1, 0); (1, 1)] in
  let fp := mkFeaturePoint a np in
  (exists l1 l2,
      [a; b] = l1 ++ feature fp :: l2 /\
      nearestPointOnLine (TurfLines := originLines) (feature fp) (0, 2)
      = Ret (point fp) /\
      (forall g np',
          In g l1 ->
          nearestPointOnLine (TurfLines := originLines) g (0, 2) = Ret np' ->
          Turf.dist (point fp) < Turf.dist np') /\
      (forall g np',
          In g l2 ->
          nearestPointOnLine (TurfLines := originLines) g (0, 2) = Ret np' ->
          Turf.dist (point fp) <= Turf.dist np')) /\
  (exists msg,
      getFeatureWithNearestPoint (turf := originLines) [] (0, 2) = Throw msg).
Proof.
  cbv zeta.
  apply (getFeatureWithNearestPoint_first_nearest
           (turf := originLines)
           [LineString [(0, 0); (0, 1)]; LineString [(1, 0); (1, 1)]] (0, 2)
           (mkFeaturePoint (LineString [(0, 0); (0, 1)])
                           (Turf.mkNearestOnLine (0, 0) 0 1 0))).
  unfold getFeatureWithNearestPoint. simpl. js_numerals. reflexivity.
Defined.

(** ** What [snap] leaves alone, and [snap] without feature snapping *)

Section SnapFrame.

Context {turf : TurfLines}.

(** Without a feature match the decision replaces, on each axis, the raw
    component by the guide value when that value is truthy. *)
Lemma snapDecision_none (e : Event) (g : NearbyVertices) :
  snapDecision e None g
  = mkLngLat (JS.ifTruthy (verticalPx g) (fun v => v) (lng (lngLat e)))
             (JS.ifTruthy (horizontalPx g) (fun h => h) (lat (lngLat e))).
Proof.
  unfold snapDecision, JS.truthy, JS.ifTruthy.
  destruct (verticalPx g) as [v|], (horizontalPx g) as [h|];
    repeat match goal with
      | |- context [Req_dec_T ?a 0] => destruct (Req_dec_T a 0)
      end; reflexivity.
Qed.

(** A truthy first match is a usable guide value, and conversely. *)
Lemma ifTruthy_usable (x : R) (xs : list R) (m : option R) (d : R) :
  FirstWithin toleranceDeg x xs m ->
  (forall v, UsableGuide x xs v -> JS.ifTruthy m (fun v => v) d = v) /\
  ((~ exists v, UsableGuide x xs v) -> JS.ifTruthy m (fun v => v) d = d).
Proof.
  intros Hm. unfold UsableGuide, JS.ifTruthy. split.
  - intros v [Hv Hnz]. rewrite (FirstWithin_unique _ _ _ _ _ Hm Hv).
    destruct (Req_dec_T v 0); [contradiction | reflexivity].
  - intros Hno. destruct m as [v|]; [|reflexivity].
    destruct (Req_dec_T v 0); [reflexivity|].
    exfalso. apply Hno. exists v. auto.
Qed.

(** [snap] when feature snapping is disabled. *)
Lemma snap_without_features (state : State) (e : Event) :
  opt_snap (options state) = false -> altKey e = false ->
  snapList state <> [] ->
  snap state e
  = Ret (snapDecision e None (fst (snapGuides state e)),
         snd (snapGuides state e)).
Proof.
  intros Hs Halt Hne. unfold snap. rewrite Halt.
  destruct (snapList state) as [|l t]; [contradiction|].
  cbn [length Nat.leb]. unfold snapFeatures. rewrite Hs. cbn [JS.bind].
  destruct (snapGuides state e). reflexivity.
Qed.

End SnapFrame.

(** X8.  A call of [snap] that returns never changes the candidate list,
    the vertex set, the options or the zoom.  Without the bypass modifier,
    when there are no candidates or guides are disabled, it leaves the
    whole state as it is, flags included; and with no candidates it returns
    the raw coordinate, without looking at the guides. *)
Theorem snap_frame {turf : TurfLines} (state state' : State) (e : Event)
        (c : LngLat) :
  snap state e = Ret (c, state') ->
  snapList state' = snapList state /\ vertices state' = vertices state /\
  options state' = options state /\ zoom state' = zoom state /\
  (altKey e = false ->
   snapList state = [] \/ opt_guides (options state) = false ->
   state' = state) /\
  (altKey e = false -> snapList state = [] -> c = lngLat e).
Proof.
  unfold snap. destruct (altKey e) eqn:Halt.
  - intros [= <- <-]. cbn. repeat split; discriminate.
  - destruct (snapList state) as [|l t] eqn:Hl.
    + cbn [length Nat.leb]. intros [= <- <-]. rewrite lngLat_eta.
      repeat split; auto.
    + cbn [length Nat.leb].
      destruct (snapFeatures state e) as [[r|found]|msg]; cbn [JS.bind];
        [| |discriminate].
      * intros [= <- <-]. repeat split; auto. discriminate.
      * pose proof (snapGuides_frame state e) as (H1 & H2 & H3 & H4).
        destruct (snapGuides state e) as [g st1] eqn:Hg. cbn [snd] in *.
        intros [= <- <-]. rewrite Hl in H1.
        repeat split; auto; try discriminate.
        intros _ [Hnil | Hoff]; [discriminate|].
        unfold snapGuides in Hg. rewrite Hoff in Hg. congruence.
Qed.

Lemma snap_frame_witness :
  let state :=
    mkState [marker "m" 10 20] [(10, 20)] (mkOptions false None true)
            0 [] [] false false in
  let state' :=
    mkState [marker "m" 10 20] [(10, 20)] (mkOptions false None true)
            0 [Some (10, 50 + 10); Some (10, 50 - 10)] [] true false in
  let e := pointerAt 10.0005 50 false in
  snapList state' = snapList state /\ vertices state' = vertices state /\
  options state' = options state /\ zoom state' = zoom state /\
  (altKey e = false ->
   snapList state = [] \/ opt_guides (options state) = false ->
   state' = state) /\
  (altKey e = false -> snapList state = [] -> mkLngLat 10 50 = lngLat e).
Proof.
  cbv zeta.
  exact (snap_frame (turf := originLines) _ _ _ _ snap_guide_run).
Defined.

(** X9.  With feature snapping disabled [snap] never throws, and the
    coordinate it returns is decided by the guides alone: on each axis the
    component is the usable guide value (the first recorded value within
    0.009 degrees, when it is not 0) if the call reaches the guide block
    and there is one, and the raw component otherwise. *)
Theorem snap_guides_only {turf : TurfLines} (state : State) (e : Event) :
  opt_snap (options state) = false ->
  let reached :=
    altKey e = false /\ snapList state <> [] /\
    opt_guides (options state) = true in
  exists c state',
    snap state e = Ret (c, state') /\
    (forall v, reached ->
               UsableGuide (lng (lngLat e)) (map fst (vertices state)) v ->
               lng c = v) /\
    (~ (reached /\
        exists v, UsableGuide (lng (lngLat e)) (map fst (vertices state)) v) ->
     lng c = lng (lngLat e)) /\
    (forall h, reached ->
               UsableGuide (lat (lngLat e)) (map snd (vertices state)) h ->
               lat c = h) /\
    (~ (reached /\
        exists h, UsableGuide (lat (lngLat e)) (map snd (vertices state)) h) ->
     lat c = lat (lngLat e)).
Proof.
  intros Hs reached.
  destruct (altKey e) eqn:Halt.
  - unfold snap. rewrite Halt, lngLat_eta. eexists _, _.
    split; [reflexivity|].
    repeat split; auto; intros ? (Hf & _); discriminate.
  - destruct (snapList state) as [|l t] eqn:Hl.
    + unfold snap. rewrite Halt, Hl, lngLat_eta. cbn [length Nat.leb].
      eexists _, _. split; [reflexivity|].
      repeat split; auto; intros ? (_ & Hf & _); contradiction.
    + rewrite snap_without_features; auto; [|rewrite Hl; discriminate].
      eexists _, _. split; [reflexivity|]. rewrite snapDecision_none.
      cbn [lng lat].
      destruct (getNearbyvertices_first (vertices state) (lngLat e))
        as [Hv Hh].
      destruct (opt_guides (options state)) eqn:Hg.
      * rewrite (snapGuides_fst _ _ Hg).
        destruct (ifTruthy_usable _ _ _ (lng (lngLat e)) Hv) as [Hv1 Hv2].
        destruct (ifTruthy_usable _ _ _ (lat (lngLat e)) Hh) as [Hh1 Hh2].
        repeat split.
        -- intros v _ Hu. apply Hv1, Hu.
        -- intros Hno. apply Hv2. intros Hex. apply Hno.
           split; [|exact Hex]. repeat split; auto. discriminate.
        -- intros h _ Hu. apply Hh1, Hu.
        -- intros Hno. apply Hh2. intros Hex. apply Hno.
           split; [|exact Hex]. repeat split; auto. discriminate.
      * unfold snapGuides. rewrite Hg. cbn.
        repeat split; auto; intros ? (_ & _ & Hf); discriminate.
Qed.

Lemma snap_guides_only_witness :
  let state :=
    mkState [marker "m" 10 20] [(10, 20)] (mkOptions false None true)
            0 [] [] false false in
  let e := pointerAt 10.0005 50 false in
  let reached :=
    altKey e = false /\ snapList state <> [] /\
    opt_guides (options state) = true in
  exists c state',
    snap (turf := originLines) state e = Ret (c, state') /\
    (forall v, reached ->
               UsableGuide (lng (lngLat e)) (map fst (vertices state)) v ->
               lng c = v) /\
    (~ (reached /\
        exists v, UsableGuide (lng (lngLat e)) (map fst (vertices state)) v) ->
     lng c = lng (lngLat e)) /\
    (forall h, reached ->
               UsableGuide (lat (lngLat e)) (map snd (vertices state)) h ->
               lat c = h) /\
    (~ (reached /\
        exists h, UsableGuide (lat (lngLat e)) (map snd (vertices state)) h) ->
     lat c = lat (lngLat e)).
Proof.
  cbv zeta.
  apply (snap_guides_only
           (turf := originLines)
           (mkState [marker "m" 10 20] [(10, 20)] (mkOptions false None true)
                    0 [] [] false false)
           (pointerAt 10.0005 50 false)).
  reflexivity.
Defined.

(** ** More on the policy and the kernel *)

(** X10.  With a priority distance of 0 or less no vertex and no midpoint
    takes priority: on a segment the policy returns the nearest point of
    the result itself, whatever the snap options.  (A priority of 0 is
    passed on as it is; only an absent priority becomes 1.25.) *)
Theorem resolve_without_priority {turf : TurfLines} (cl : LayerDistances)
        (A B : Position) (so : option SnapOptions) (p : R) :
  segment cl = Some [A; B] ->
  p <= 0 ->
  (midPointsEnabled so = true -> exists M, midpoint A B = Ret M) ->
  checkPrioritiySnapping cl so (Some p) = Ret (latlng cl).
Proof.
  intros Hseg Hp Hmid.
  rewrite (checkPrioritiySnapping_pair cl A B so (Some p) Hseg).
  cbn [priorityDistanceKm].
  set (C := (lng (latlng cl), lat (latlng cl))).
  assert (Hfinal : forall (V : option Position) (d : R),
             0 <= d ->
             match (if JS.ltb d p then V else Some C) with
             | Some (x, y) => Ret (mkLngLat x y)
             | None => Throw "undefined is not iterable"
             end = Ret (latlng cl)).
  { intros V d Hd. rewrite (proj2 (ltb_false d p)) by lra.
    unfold C. rewrite lngLat_eta. reflexivity. }
  pose proof (haversine_nonneg A C) as HA.
  pose proof (haversine_nonneg B C) as HB.
  assert (Hnear : forall chosen,
             chosen = (if JS.ltb (Turf.haversine A C) (Turf.haversine B C)
                       then (Some A, Turf.haversine A C)
                       else (Some B, Turf.haversine B C)) ->
             0 <= snd chosen).
  { intros chosen ->. destruct (JS.ltb _ _); assumption. }
  destruct (midPointsEnabled so).
  - destruct (Hmid eq_refl) as [M ->]. cbn [JS.bind].
    pose proof (haversine_nonneg M C) as HM.
    destruct (_ && _); cbn [JS.bind fst snd].
    + apply Hfinal, HM.
    + apply Hfinal, Hnear. reflexivity.
  - cbn [JS.bind]. apply Hfinal, Hnear. reflexivity.
Qed.

Lemma resolve_without_priority_witness :
  let cl := mkLayerDistances (mkLngLat 0 1) (Some [(0, 0); (0, 4)])
                             (Some 0) (Some false) None in
  checkPrioritiySnapping (turf := originLines) cl
                         (Some (mkSnapOptions (Some true) None None)) (Some 0)
  = Ret (latlng cl).
Proof.
  cbv zeta.
  apply (resolve_without_priority
           (turf := originLines)
           (mkLayerDistances (mkLngLat 0 1) (Some [(0, 0); (0, 4)])
                             (Some 0) (Some false) None)
           (0, 0) (0, 4)).
  - reflexivity.
  - lra.
  - intros _. eexists. reflexivity.
Defined.

(** X11.  For a [Point] candidate with at least two numbers the kernel
    returns the point itself (its first two numbers) with no segment and
    with the great-circle distance to the query, which is not negative;
    the policy then resolves to that point, whatever the options and the
    priority distance.  A [Point] with fewer than two numbers makes the
    kernel throw. *)
Theorem marker_snaps_to_itself {turf : TurfLines} (lngLat : LngLat)
        (i : string) (x y : R) (rest : list R) (so : option SnapOptions)
        (prio : option R) :
  (exists r d,
      calcLayerDistances lngLat (mkFeature i (Point (x :: y :: rest))) = Ret r /\
      latlng r = mkLngLat x y /\ segment r = None /\
      distance r = Some d /\
      d = Turf.haversine (x, y) (lng lngLat, lat lngLat) /\ 0 <= d /\
      checkPrioritiySnapping r so prio = Ret (mkLngLat x y)) /\
  (exists msg, calcLayerDistances lngLat (mkFeature i (Point [])) = Throw msg) /\
  (exists msg, calcLayerDistances lngLat (mkFeature i (Point [x])) = Throw msg).
Proof.
  split; [|split; unfold calcLayerDistances; simpl; eauto].
  eexists _, _. split; [reflexivity|].
  cbn [latlng segment distance fst snd].
  repeat split. apply haversine_nonneg.
Qed.

(** X12.  [metersPerPixel] halves with every zoom level, is the same on
    both sides of the equator, and is positive strictly between the
    poles. *)
Theorem metersPerPixel_scaling :
  (forall latitude zoomLevel,
      metersPerPixel latitude (zoomLevel + 1)
      = metersPerPixel latitude zoomLevel / 2) /\
  (forall latitude zoomLevel,
      metersPerPixel (- latitude) zoomLevel = metersPerPixel latitude zoomLevel) /\
  (forall latitude zoomLevel,
      Rabs latitude < 90 -> 0 < metersPerPixel latitude zoomLevel).
Proof.
  split; [|split].
  - intros latitude zoomLevel. unfold metersPerPixel. cbv zeta.
    replace (zoomLevel + 1 + 8) with ((zoomLevel + 8) + 1) by ring.
    rewrite Rpower_plus, Rpower_1 by lra.
    pose proof (Rpower_2_pos (zoomLevel + 8)). field. lra.
  - intros latitude zoomLevel. unfold metersPerPixel. cbv zeta.
    replace (- latitude * (PI / 180)) with (- (latitude * (PI / 180))) by ring.
    rewrite cos_neg. reflexivity.
  - intros latitude zoomLevel Hlat. unfold metersPerPixel. cbv zeta.
    pose proof PI_RGT_0 as Hpi. apply Rabs_def2 in Hlat.
    assert (Hcos : 0 < cos (latitude * (PI / 180))).
    { apply cos_gt_0.
      - assert (- 90 * (PI / 180) < latitude * (PI / 180))
          by (apply Rmult_lt_compat_r; lra).
        lra.
      - assert (latitude * (PI / 180) < 90 * (PI / 180))
          by (apply Rmult_lt_compat_r; lra).
        lra. }
    apply Rdiv_lt_0_compat; [|apply Rpower_2_pos].
    apply Rmult_lt_0_compat; lra.
Qed.

(** X13.  Two branches of [snap] are never taken.  No result of the
    selector is flagged as a marker (the marker branch of the kernel
    returns an object without [isMarker]), so [snap] always resolves
    through [checkPrioritiySnapping]; and with candidates present the
    feature block never takes the return for an empty closest layer. *)
Theorem snap_dead_branches {turf : TurfLines} (state : State) (e : Event) :
  (forall cl,
      calcClosestLayer (lngLat e) (snapList state) = Ret (Some cl) ->
      JS.truthyb (isMarker cl) = false) /\
  (forall c, snapList state <> [] -> snapFeatures state e <> Ret (Return c)) /\
  (forall c state',
      altKey e = false -> snapList state <> [] ->
      snap state e = Ret (c, state') ->
      exists found,
        c = snapDecision e found (fst (snapGuides state e)) /\
        state' = snd (snapGuides state e)).
Proof.
  split; [|split].
  - intros cl H. eapply calcClosestLayer_isMarker. exact H.
  - intros c Hne H.
    destruct (snapFeatures_continues _ _ _ Hne H) as [found Hf]. discriminate.
  - intros c state' Halt Hne H.
    destruct (snap_reaches_guides _ _ _ _ Halt Hne H) as (found & _ & Hc & Hs).
    exists found. auto.
Qed.

(** ** Polygon boundaries *)

Section Boundaries.

Lemma lineString_inv (coords : list Position) (g : Geometry) :
  Turf.lineString coords = Ret g ->
  (2 <= length coords)%nat /\ g = LineString coords.
Proof.
  unfold Turf.lineString. destruct (Nat.ltb_spec (length coords) 2).
  - discriminate.
  - intros [= <-]. auto.
Qed.

Lemma mapM_lineString_inv (seqs : list (list Position)) (ls : list Geometry) :
  JS.mapM Turf.lineString seqs = Ret ls ->
  Forall (fun coords => (2 <= length coords)%nat) seqs /\
  ls = map LineString seqs.
Proof.
  revert ls. induction seqs as [|cs t IH]; intros ls H; simpl in H.
  - injection H as <-. auto.
  - destruct (Turf.lineString cs) as [g|] eqn:Hg; simpl in H; [|discriminate].
    destruct (JS.mapM Turf.lineString t) as [gs|]; simpl in H; [|discriminate].
    injection H as <-. apply lineString_inv in Hg. destruct Hg as [Hlen ->].
    destruct (IH gs eq_refl) as [Hall ->]. split; [constructor|]; auto.
Qed.

Lemma polygonLineStrings_inv (rings : list (list Position))
      (ls : list Geometry) :
  polygonLineStrings rings = Ret ls ->
  rings <> [] /\
  Forall (fun coords => (2 <= length coords)%nat) rings /\
  ls = map LineString rings.
Proof.
  unfold polygonLineStrings, Turf.coordsToLine.
  destruct rings as [|r [|r' t]].
  - discriminate.
  - cbn [length Nat.ltb Nat.leb].
    destruct (Turf.lineString r) as [g|] eqn:Hg; cbn [JS.bind]; [|discriminate].
    apply lineString_inv in Hg. destruct Hg as [Hlen ->].
    rewrite lineString_ret by exact Hlen. cbn [JS.bind].
    intros [= <-]. repeat split; [discriminate | repeat constructor; auto].
  - cbn [length Nat.ltb Nat.leb JS.bind]. intros H.
    apply mapM_lineString_inv in H. destruct H as [Hall ->].
    repeat split; [discriminate | exact Hall].
Qed.

End Boundaries.

(** X14.  The lines that the kernel evaluates for a [Polygon] are exactly
    its rings, in order: one line for a polygon without holes, one line per
    ring otherwise.  This holds when the polygon has a ring and every ring
    has at least two coordinates; in every other case the conversion, and
    with it the kernel, throws.  For a [MultiPolygon] the lines are the
    rings of all its polygons, in order. *)
Theorem polygon_lines_are_rings {turf : TurfLines} (lngLat : LngLat)
        (i : string) (rings : list (list Position)) :
  let wellFormed :=
    rings <> [] /\ Forall (fun coords => (2 <= length coords)%nat) rings in
  (wellFormed -> polygonLineStrings rings = Ret (map LineString rings)) /\
  (forall ls, polygonLineStrings rings = Ret ls ->
              wellFormed /\ ls = map LineString rings) /\
  (~ wellFormed ->
   exists msg,
     calcLayerDistances lngLat (mkFeature i (Polygon rings)) = Throw msg) /\
  (forall polys : list (list (list Position)),
      Forall (fun rings => rings <> []) polys ->
      Forall (fun coords => (2 <= length coords)%nat) (concat polys) ->
      multiPolygonLineStrings polys = Ret (map LineString (concat polys))).
Proof.
  cbv zeta. split; [|split; [|split]].
  - intros [Hne Hall]. apply polygonLineStrings_ret; assumption.
  - intros ls H. apply polygonLineStrings_inv in H. tauto.
  - intros Hbad. unfold calcLayerDistances. cbn [geometry].
    destruct (polygonLineStrings rings) as [ls|msg] eqn:Hp.
    + exfalso. apply Hbad. apply polygonLineStrings_inv in Hp. tauto.
    + cbn [JS.bind]. eauto.
  - intros polys Hne Hall. apply multiPolygonLineStrings_ret; assumption.
Qed.

(** ** Adding the point being drawn to the vertex set *)

Section AddedVertex.

Lemma find_app_one (A : Type) (p : A -> bool) (l : list A) (x : A) :
  JS.find p (l ++ [x])
  = match JS.find p l with
    | Some y => Some y
    | None => if p x then Some x else None
    end.
Proof.
  induction l as [|a t IH]; simpl.
  - reflexivity.
  - destruct (p a); [reflexivity | exact IH].
Qed.

Lemma find_app_one_some (A : Type) (p : A -> bool) (l : list A) (x y : A) :
  JS.find p l = Some y -> JS.find p (l ++ [x]) = Some y.
Proof. intros H. rewrite find_app_one, H. reflexivity. Qed.

Lemma find_app_one_none (A : Type) (p : A -> bool) (l : list A) (x : A) :
  JS.find p l = None ->
  JS.find p (l ++ [x]) = if p x then Some x else None.
Proof. intros H. rewrite find_app_one, H. reflexivity. Qed.

End AddedVertex.

(** X15.  Adding a point to the vertex set with [addPointToVertices] never
    changes a guide match that the resolver already finds; on an axis
    without a match, the new point becomes the match exactly when its
    coordinate on that axis is within 0.009 degrees of the query. *)
Theorem added_vertex_keeps_matches (vertices : list Position)
        (p : Position) (coords : LngLat) :
  let before := getNearbyvertices vertices coords in
  let after := getNearbyvertices (addPointToVertices vertices p) coords in
  (forall v, verticalPx before = Some v -> verticalPx after = Some v) /\
  (verticalPx before = None ->
   verticalPx after
   = if Rlt_dec (Rabs (fst p - lng coords)) toleranceDeg
     then Some (fst p) else None) /\
  (forall h, horizontalPx before = Some h -> horizontalPx after = Some h) /\
  (horizontalPx before = None ->
   horizontalPx after
   = if Rlt_dec (Rabs (snd p - lat coords)) toleranceDeg
     then Some (snd p) else None).
Proof.
  cbv zeta. unfold getNearbyvertices, addPointToVertices, toleranceDeg.
  cbn [verticalPx horizontalPx]. rewrite !map_app. cbn [map].
  repeat split.
  - intros v H. apply find_app_one_some. exact H.
  - intros H. rewrite find_app_one_none by exact H.
    unfold JS.ltb. destruct (Rlt_dec _ _); reflexivity.
  - intros h H. apply find_app_one_some. exact H.
  - intros H. rewrite find_app_one_none by exact H.
    unfold JS.ltb. destruct (Rlt_dec _ _); reflexivity.
Qed.

(** ** Sessions whose candidates are markers *)

Section Markers.

Context {turf : TurfLines}.

Lemma marker_kernel (lngLat : LngLat) (f : Feature) (x y : R)
      (rest : list R) :
  geometry f = Point (x :: y :: rest) ->
  calcLayerDistances lngLat f
  = Ret (mkLayerDistances
           (mkLngLat x y) None
           (Some (Turf.haversine (x, y) (lng lngLat, lat lngLat)))
           None None).
Proof. intros Hg. unfold calcLayerDistances. rewrite Hg. reflexivity. Qed.

(** On markers the scan of the selector never throws. *)
Lemma closest_fold_markers (lngLat : LngLat) (layers : list Feature)
      (acc : option LayerDistances) :
  Forall (fun f => exists x y rest, geometry f = Point (x :: y :: rest))
         layers ->
  exists x, fold_left (closestStep lngLat) layers (Ret acc) = Ret x.
Proof.
  intros Hall. revert acc.
  induction Hall as [|f t (x & y & rest & Hg) _ IH]; intros acc; simpl.
  - eauto.
  - rewrite (marker_kernel lngLat f x y rest Hg). cbn [JS.bind].
    destruct (replaces _ acc); apply IH.
Qed.

Lemma snapDecision_some_cases (e : Event) (f : FeatureSnap)
      (g : NearbyVertices) :
  snapDecision e (Some f) g = snapLatLng f \/
  snapDecision e (Some f) g = snapDecision e None g.
Proof.
  unfold snapDecision. destruct (JS.lt _ _); [left | right]; reflexivity.
Qed.

(** Each component that the guide block hands to the decision is the raw
    one or a usable guide value. *)
Lemma guided_components (state : State) (e : Event) :
  let c := snapDecision e None (fst (snapGuides state e)) in
  (lng c = lng (lngLat e) \/
   exists v, UsableGuide (lng (lngLat e)) (map fst (vertices state)) v /\
             lng c = v) /\
  (lat c = lat (lngLat e) \/
   exists h, UsableGuide (lat (lngLat e)) (map snd (vertices state)) h /\
             lat c = h).
Proof.
  cbv zeta. rewrite snapDecision_none. cbn [lng lat].
  unfold snapGuides. destruct (opt_guides (options state)); cbn [fst].
  - destruct (getNearbyvertices_first (vertices state) (lngLat e)) as [Hv Hh].
    unfold JS.ifTruthy, UsableGuide. split.
    + destruct (verticalPx _) as [v|]; [|left; reflexivity].
      destruct (Req_dec_T v 0); [left; reflexivity|]. right. eauto.
    + destruct (horizontalPx _) as [h|]; [|left; reflexivity].
      destruct (Req_dec_T h 0); [left; reflexivity|]. right. eauto.
  - split; left; reflexivity.
Qed.

End Markers.

(** X16.  When every candidate is a [Point] with at least two numbers,
    [snap] never throws, whatever the options; the coordinate it returns is
    the position of one of the markers, or a coordinate of which each
    component is the raw one or a usable guide value. *)
Theorem snap_markers_total {turf : TurfLines} (state : State) (e : Event) :
  Forall (fun f => exists x y rest, geometry f = Point (x :: y :: rest))
         (snapList state) ->
  exists c state',
    snap state e = Ret (c, state') /\
    ((exists f x y rest,
         In f (snapList state) /\ geometry f = Point (x :: y :: rest) /\
         c = mkLngLat x y) \/
     ((lng c = lng (lngLat e) \/
       exists v, UsableGuide (lng (lngLat e)) (map fst (vertices state)) v /\
                 lng c = v) /\
      (lat c = lat (lngLat e) \/
       exists h, UsableGuide (lat (lngLat e)) (map snd (vertices state)) h /\
                 lat c = h))).
Proof.
  intros Hall.
  destruct (altKey e) eqn:Halt.
  { unfold snap. rewrite Halt, lngLat_eta. eexists _, _.
    split; [reflexivity|]. right. split; left; reflexivity. }
  destruct (snapList state) as [|l0 t0] eqn:Hl.
  { unfold snap. rewrite Halt, Hl, lngLat_eta. cbn [length Nat.leb].
    eexists _, _. split; [reflexivity|]. right. split; left; reflexivity. }
  assert (Hne : snapList state <> []) by (rewrite Hl; discriminate).
  rewrite <- Hl in Hall.
  destruct (opt_snap (options state)) eqn:Hs.
  - destruct (closest_fold_markers (lngLat e) (snapList state) None Hall)
      as [x Hx].
    fold (calcClosestLayer (lngLat e) (snapList state)) in Hx.
    destruct (calcClosestLayer_nonempty _ _ _ Hne Hx) as [cl ->].
    destruct (calcClosestLayer_selects _ _ _ Hx) as (l & r & Hin & Hr & ->).
    rewrite Forall_forall in Hall.
    destruct (Hall l Hin) as (mx & my & rest & Hg).
    rewrite (marker_kernel (lngLat e) l mx my rest Hg) in Hr.
    injection Hr as <-.
    rewrite (snap_found state e _ (mkLngLat mx my) Halt Hne Hs Hx eq_refl).
    eexists _, _. split; [reflexivity|].
    match goal with
    | |- context [snapDecision e (Some ?f) ?g] =>
        destruct (snapDecision_some_cases e f g) as [Hc | Hc]; rewrite Hc
    end.
    + left. exists l, mx, my, rest. rewrite <- Hl. auto.
    + right. apply guided_components.
  - rewrite (snap_without_features state e Hs Halt Hne).
    eexists _, _. split; [reflexivity|]. right. apply guided_components.
Qed.

Lemma snap_markers_total_witness :
  let state := markerSession None in
  let e := pointerAt 0 0 false in
  exists c state',
    snap (turf := originLines) state e = Ret (c, state') /\
    ((exists f x y rest,
         In f (snapList state) /\ geometry f = Point (x :: y :: rest) /\
         c = mkLngLat x y) \/
     ((lng c = lng (lngLat e) \/
       exists v, UsableGuide (lng (lngLat e)) (map fst (vertices state)) v /\
                 lng c = v) /\
      (lat c = lat (lngLat e) \/
       exists h, UsableGuide (lat (lngLat e)) (map snd (vertices state)) h /\
                 lat c = h))).
Proof.
  cbv zeta.
  apply (snap_markers_total
           (turf := originLines) (markerSession None) (pointerAt 0 0 false)).
  repeat constructor. exists 0, (-1), []. reflexivity.
Defined.
